(** * evolve.py: hyperparameter evolution driver for the trackers

    A shallow embedding of [evolve.py] (class [Objective], [save_plots],
    [print_best_trial_metric_results], [write_best_HOTA_params_to_config],
    [parse_opt] and the script body) together with the Python primitives the
    file relies on ([str.split], [re.findall], [float], [int], slicing,
    [zip], [max]).

    Conventions.
    - Python [str] is [string], a sequence of characters with code points
      below 256; among these [\d] of the pattern takes the ASCII digits.
    - [open(path, 'w')] is taken to succeed: the trace records the opening
      of a file that could be opened, and a run in which it raises is not
      described.
    - A Python [float] read from a decimal token is kept as the exact decimal
      it denotes, a reduced rational of [Q]: the double [float()] returns is
      a function of that decimal, so two equal decimals are equal floats.
    - An exception is a value of [exn]; a computation that may raise
      returns a [result]. *)

From Stdlib Require Import ZArith QArith Qreduction String Ascii List Lia Bool.
From stdpp Require Import base option list gmap strings.

Local Open Scope string_scope.
Local Open Scope Z_scope.

(** ** Exceptions and fallible computations *)

Inductive exn : Type :=
| ValueError
| IndexError
| KeyError (key : string)
| NameError (name : string)
| ReferenceLost.   (* a namespace reference outside the store: never in Python *)

Inductive result (A : Type) : Type :=
| Ok (a : A)
| Raise (e : exn).
Arguments Ok {A} a.
Arguments Raise {A} e.

#[global] Instance result_ret : MRet result := fun A a => Ok a.
#[global] Instance result_fmap : FMap result := fun A B f r =>
  match r with
  | Ok a => Ok (f a)
  | Raise e => Raise e
  end.
#[global] Instance result_bind : MBind result := fun A B f r =>
  match r with
  | Ok a => f a
  | Raise e => Raise e
  end.

(** A list comprehension [[f x for x in l]] whose body may raise: the
    elements are evaluated left to right and the first exception wins. *)
Fixpoint comprehension {A B} (f : A -> result B) (l : list A) : result (list B) :=
  match l with
  | [] => Ok []
  | x :: l' => y ← f x; ys ← comprehension f l'; Ok (y :: ys)
  end.

(** ** [str.split(sep)] for a non-empty separator

    The text is scanned from the left; at an occurrence of [sep] the current
    piece ends and the scan resumes behind the occurrence ([skip] counts the
    characters of the occurrence still to pass). *)
Fixpoint split_from (sep s : string) (skip : nat) : list string :=
  match s with
  | EmptyString => [EmptyString]
  | String c s' =>
      match skip with
      | S k => split_from sep s' k
      | O =>
          if String.prefix sep s
          then EmptyString :: split_from sep s' (String.length sep - 1)
          else match split_from sep s' 0 with
               | p :: ps => String c p :: ps
               | [] => [String c EmptyString]
               end
      end
  end.

Definition split (sep s : string) : list string := split_from sep s 0.

(** [sep in s] *)
Fixpoint contains (sep s : string) : bool :=
  String.prefix sep s ||
  match s with
  | EmptyString => false
  | String _ s' => contains sep s'
  end.

(** ** Slices [l[start:stop]] (step 1) *)

Definition slice_index (len i : Z) : Z :=
  if i <? 0 then Z.max 0 (i + len) else Z.min i len.

Definition py_slice {A} (l : list A) (start stop : Z) : list A :=
  let len := Z.of_nat (length l) in
  let a := slice_index len start in
  let b := slice_index len stop in
  firstn (Z.to_nat (b - a)) (skipn (Z.to_nat a) l).

(** ** A backtracking matcher for the patterns of the [re] module

    Enough of [re] for the pattern of [Objective.__call__]: a pattern is a
    sequence of character classes, each with a greedy quantifier.  As in
    [re], a quantifier first takes as much as it can and gives characters
    back when the rest of the pattern fails. *)

Inductive quant : Type := QOne | QOpt | QStar | QPlus.

Record atom : Type := Atom { cls : ascii -> bool; qnt : quant }.

Definition regex : Type := list atom.

(** [many c k s]: greedy [c*] followed by the continuation [k]; the result
    is the text matched from [s] on. *)
Fixpoint many (c : ascii -> bool) (k : string -> option string) (s : string)
  : option string :=
  match s with
  | String a s' =>
      if c a
      then match many c k s' with
           | Some m => Some (String a m)
           | None => k s
           end
      else k s
  | EmptyString => k s
  end.

Definition atom_match (a : atom) (k : string -> option string) (s : string)
  : option string :=
  match qnt a with
  | QOne =>
      match s with
      | String x s' => if cls a x then String x <$> k s' else None
      | EmptyString => None
      end
  | QOpt =>
      match s with
      | String x s' =>
          if cls a x
          then match k s' with
               | Some m => Some (String x m)
               | None => k s
               end
          else k s
      | EmptyString => k s
      end
  | QStar => many (cls a) k s
  | QPlus =>
      match s with
      | String x s' => if cls a x then String x <$> many (cls a) k s' else None
      | EmptyString => None
      end
  end.

(** The match of [r] that starts at the head of [s], if there is one. *)
Definition match_here (r : regex) : string -> option string :=
  fold_right atom_match (fun _ => Some EmptyString) r.

(** [re.findall(r, s)] for a pattern without groups: the non-overlapping
    matches from left to right. *)
Fixpoint findall_from (r : regex) (s : string) (skip : nat) : list string :=
  match s with
  | EmptyString =>
      match skip, match_here r EmptyString with
      | O, Some m => [m]
      | _, _ => []
      end
  | String c s' =>
      match skip with
      | S k => findall_from r s' k
      | O =>
          match match_here r s with
          | Some m => m :: findall_from r s' (String.length m - 1)
          | None => findall_from r s' 0
          end
      end
  end.

Definition findall (r : regex) (s : string) : list string := findall_from r s 0.

Definition is_digit (c : ascii) : bool :=
  (48 <=? nat_of_ascii c)%nat && (nat_of_ascii c <=? 57)%nat.

Definition is_sign (c : ascii) : bool :=
  Ascii.eqb c "-" || Ascii.eqb c "+".

Definition is_dot (c : ascii) : bool := Ascii.eqb c ".".

(** The pattern ["[-+]?(?:\d*\.*\d+)"]. *)
Definition number_pattern : regex :=
  [Atom is_sign QOpt; Atom is_digit QStar; Atom is_dot QStar; Atom is_digit QPlus].

(** ** [float(token)]

    [float] on a text of signs, digits and dots, which is all the pattern
    above can match: an optional sign, digits, at most one dot, digits, and
    at least one digit in all.  Any other text raises [ValueError]. *)

Fixpoint digits (s : string) (acc : Z) (n : nat) : Z * nat * string :=
  match s with
  | String c s' =>
      if is_digit c
      then digits s' (10 * acc + (Z.of_nat (nat_of_ascii c) - 48)) (S n)
      else (acc, n, s)
  | EmptyString => (acc, n, s)
  end.

Definition decimal (neg : bool) (m : Z) (frac : nat) : Q :=
  Qred (Qmake (if neg then - m else m) (Z.to_pos (10 ^ Z.of_nat frac))).

Definition unsigned_float (neg : bool) (s : string) : result Q :=
  let '(ip, ni, rest) := digits s 0 0 in
  match rest with
  | EmptyString => if (0 <? ni)%nat then Ok (decimal neg ip 0) else Raise ValueError
  | String c rest' =>
      if is_dot c
      then let '(m, nf, rest'') := digits rest' ip 0 in
           match rest'' with
           | EmptyString =>
               if (0 <? ni + nf)%nat
               then Ok (decimal neg m nf)
               else Raise ValueError
           | String _ _ => Raise ValueError
           end
      else Raise ValueError
  end.

Definition py_float (s : string) : result Q :=
  match s with
  | String c s' =>
      if Ascii.eqb c "-" then unsigned_float true s'
      else if Ascii.eqb c "+" then unsigned_float false s'
      else unsigned_float false s
  | EmptyString => Raise ValueError
  end.

(** ** Dictionaries *)

(** [{k: v for k, v in pairs}]: later pairs overwrite earlier ones. *)
Definition dict_of {V} (pairs : list (string * V)) : gmap string V :=
  foldl (fun d kv => <[kv.1 := kv.2]> d) ∅ pairs.

(** [d[k]] *)
Definition getitem {V} (d : gmap string V) (k : string) : result V :=
  match d !! k with
  | Some v => Ok v
  | None => Raise (KeyError k)
  end.

(** ** Lines 157-163 of [Objective.__call__]: from the report to the scores *)

(** [float(re.findall("[-+]?(?:\d*\.*\d+)", f)[0])] *)
Definition first_number (f : string) : result Q :=
  match findall number_pattern f with
  | m :: _ => py_float m
  | [] => Raise IndexError
  end.

(** The list [combined_results] after line 160. *)
Definition extract_values (results : string) : result (list Q) :=
  comprehension first_number (py_slice (split "COMBINED" results) 2 (-1)).

Definition parse_results (results : string) : result (Q * Q * Q) :=
  combined_results ← extract_values results;
  let combined_results := dict_of (zip ["HOTA"; "MOTA"; "IDF1"] combined_results) in
  hota ← getitem combined_results "HOTA";
  mota ← getitem combined_results "MOTA";
  idf1 ← getitem combined_results "IDF1";
  Ok (hota, mota, idf1).

(** ** Values, option namespaces, trials and studies *)

(** A sampled parameter value. *)
Inductive value : Type :=
| VFloat (x : Q)
| VInt (n : Z)
| VBool (b : bool)
| VStr (s : string).

Inductive device_item : Type :=
| DevInt (n : Z)
| DevStr (s : string).

(** What [parser.parse_args()] returns, for the options the file uses:
    [--tracking-method], [--conf-thres], [--device], [--n-trials] and
    [--resume]. *)
Record Namespace : Type := mkNamespace {
  arg_tracking_method : string;
  arg_conf_thres : Q;
  arg_device : string;
  arg_n_trials : Z;
  arg_resume : bool
}.

(** The namespace [opt] once [parse_opt] has rebound [tracking_config] and
    [device].  [track_thres] is no command-line option: the attribute
    exists only once the bytetrack branch has assigned it. *)
Record Opt : Type := mkOpt {
  tracking_method : string;
  tracking_config : string;
  conf_thres : Q;
  track_thres : option Q;
  device : list device_item;
  n_trials : Z;
  resume : bool
}.

Definition set_conf_thres (x : Q) (o : Opt) : Opt :=
  mkOpt (tracking_method o) (tracking_config o) x (track_thres o)
        (device o) (n_trials o) (resume o).

Definition set_track_thres (x : Q) (o : Opt) : Opt :=
  mkOpt (tracking_method o) (tracking_config o) (conf_thres o) (Some x)
        (device o) (n_trials o) (resume o).

(** An optuna trial as [get_new_config] sees it: the three proposal
    requests, answered by the sampler. *)
Record Trial : Type := mkTrial {
  suggest_float : string -> Q -> Q -> Q;
  suggest_int : string -> Z -> Z -> Z -> Z;          (* name, low, high, step *)
  suggest_categorical : string -> list value -> value
}.

(** What the sampler promises for each rule kind. *)
Record sampler_in_range (trial : Trial) : Prop := {
  float_in_range : forall name lo hi,
    (lo <= hi)%Q ->
    (lo <= suggest_float trial name lo hi)%Q /\ (suggest_float trial name lo hi <= hi)%Q;
  int_on_step : forall name lo hi step,
    lo <= hi -> 0 < step ->
    lo <= suggest_int trial name lo hi step <= hi /\
    (suggest_int trial name lo hi step - lo) mod step = 0;
  categorical_in_set : forall name choices,
    choices <> [] -> In (suggest_categorical trial name choices) choices
}.

(** A recorded trial of a study. *)
Record FrozenTrial : Type := mkFrozenTrial {
  number : Z;
  params : gmap string value;
  values : list Q
}.

Inductive direction : Type := Maximize | Minimize.

Record Study : Type := mkStudy {
  directions : list direction;
  trials : list FrozenTrial
}.

(** [optuna.create_study(directions=ds)] *)
Definition create_study (ds : list direction) : Study := mkStudy ds [].

(** ** The world: namespaces, module globals and the trace of effects *)

(** A piece of an f-string: literal text or a formatted value. *)
Inductive fragment : Type :=
| Lit (s : string)
| FmtInt (n : Z)
| FmtParams (p : gmap string value)
| FmtValues (l : list Q).

(** A figure of [optuna.visualization]; [target] is the index [i] of
    [lambda t: t.values[i]]. *)
Inductive figure : Type :=
| ParetoFront (s : Study) (target_names : list string)
| ParamImportances (s : Study) (target : nat) (target_name : string).

Inductive event : Type :=
| EvOpen (path : string)                                   (* open(path, 'w') *)
| EvWrite (path : string) (text : list fragment)           (* f.write(text) *)
| EvYamlDump (path : string) (d : gmap string (gmap string value))
| EvJoblibDump (path : string) (s : Study)
| EvWriteHtml (path : string) (f : figure)
| EvPrint (text : list fragment)
| EvRun (self_opt arg : nat).                              (* self.run(arg) *)

Record World : Type := mkWorld {
  heap : gmap nat Opt;        (* the namespace objects, by reference *)
  globals : gmap string nat;  (* module globals bound to a namespace *)
  log : list event            (* effects so far, oldest first *)
}.

(** A computation on the world that may raise; the world survives the
    exception. *)
Definition M (A : Type) : Type := World -> result A * World.

#[global] Instance M_ret : MRet M := fun A a w => (Ok a, w).
#[global] Instance M_bind : MBind M := fun A B f c w =>
  match c w with
  | (Ok a, w') => f a w'
  | (Raise e, w') => (Raise e, w')
  end.

Definition lift {A} (r : result A) : M A := fun w => (r, w).

Definition emit (e : event) : M unit :=
  fun w => (Ok tt, mkWorld (heap w) (globals w) (log w ++ [e])%list).

(** [ref.attr] *)
Definition getattr {A} (ref : nat) (attr : Opt -> A) : M A :=
  fun w =>
    match heap w !! ref with
    | Some o => (Ok (attr o), w)
    | None => (Raise ReferenceLost, w)
    end.

(** [ref.attr = x], as the update [upd] of the namespace *)
Definition setattr (ref : nat) (upd : Opt -> Opt) : M unit :=
  fun w =>
    match heap w !! ref with
    | Some o => (Ok tt, mkWorld (<[ref := upd o]> (heap w)) (globals w) (log w))
    | None => (Raise ReferenceLost, w)
    end.

(** Reading the module global [name] *)
Definition load_global (name : string) : M nat :=
  fun w =>
    match globals w !! name with
    | Some ref => (Ok ref, w)
    | None => (Raise (NameError name), w)
    end.

(** ** The file store the trace leaves behind *)

Inductive chunk : Type :=
| Text (t : list fragment)
| Yaml (d : gmap string (gmap string value))
| Pickle (s : Study)
| Html (f : figure).

Definition apply_event (fs : gmap string (list chunk)) (e : event)
  : gmap string (list chunk) :=
  match e with
  | EvOpen p => <[p := []]> fs
  | EvWrite p t => alter (fun c => (c ++ [Text t])%list) p fs
  | EvYamlDump p d => alter (fun c => (c ++ [Yaml d])%list) p fs
  | EvJoblibDump p s => <[p := [Pickle s]]> fs
  | EvWriteHtml p f => <[p := [Html f]]> fs
  | EvPrint _ | EvRun _ _ => fs
  end.

Definition replay (evs : list event) (fs : gmap string (list chunk))
  : gmap string (list chunk) :=
  foldl apply_event fs evs.

(** ** [Objective.get_new_config] *)

Definition get_new_config (self_opt : nat) (trial : Trial) : M unit :=
  let d : gmap string (gmap string value) := ∅ in
  tracking_method ← getattr self_opt tracking_method;
  d ← (if String.eqb tracking_method "strongsort" then
         setattr self_opt (set_conf_thres (suggest_float trial "conf_thres" 0.35 0.55));;
         let iou_thresh := suggest_float trial "iou_thresh" 0.1 0.4 in
         let ecc := suggest_categorical trial "ecc" [VBool true; VBool false] in
         let ema_alpha := suggest_float trial "ema_alpha" 0.7 0.95 in
         let max_dist := suggest_float trial "max_dist" 0.1 0.4 in
         let max_iou_dist := suggest_float trial "max_iou_dist" 0.5 0.9 in
         let max_age := suggest_int trial "max_age" 10 200 10 in
         let n_init := suggest_int trial "n_init" 1 3 1 in
         let mc_lambda := suggest_categorical trial "mc_lambda" [VFloat 0.995] in
         let nn_budget := suggest_categorical trial "nn_budget" [VInt 100] in
         let max_unmatched_preds :=
           suggest_categorical trial "max_unmatched_preds" [VInt 0] in
         mret (<["strongsort" := dict_of
                   [("ecc", ecc);
                    ("mc_lambda", mc_lambda);
                    ("ema_alpha", VFloat ema_alpha);
                    ("max_dist", VFloat max_dist);
                    ("max_iou_dist", VFloat max_iou_dist);
                    ("max_unmatched_preds", max_unmatched_preds);
                    ("max_age", VInt max_age);
                    ("n_init", VInt n_init);
                    ("nn_budget", nn_budget)]]> d)
       else if String.eqb tracking_method "bytetrack" then
         setattr self_opt (set_track_thres (suggest_float trial "track_thres" 0.35 0.55));;
         let track_buffer := suggest_int trial "track_buffer" 10 60 10 in
         let match_thresh := suggest_float trial "match_thresh" 0.7 0.9 in
         conf_thres ← getattr self_opt conf_thres;
         mret (<["bytetrack" := dict_of
                   [("track_thresh", VFloat conf_thres);
                    ("match_thresh", VFloat match_thresh);
                    ("track_buffer", VInt track_buffer);
                    ("frame_rate", VInt 30)]]> d)
       else if String.eqb tracking_method "ocsort" then
         setattr self_opt (set_conf_thres (suggest_float trial "det_thresh" 0.35 0.55));;
         let max_age := suggest_int trial "max_age" 10 60 10 in
         let min_hits := suggest_int trial "min_hits" 1 5 1 in
         let iou_thresh := suggest_float trial "iou_thresh" 0.1 0.4 in
         let delta_t := suggest_int trial "delta_t" 1 5 1 in
         let asso_func := suggest_categorical trial "asso_func" [VStr "iou"; VStr "giou"] in
         let inertia := suggest_float trial "inertia" 0.1 0.4 in
         let use_byte := suggest_categorical trial "use_byte" [VBool true; VBool false] in
         conf_thres ← getattr self_opt conf_thres;
         mret (<["ocsort" := dict_of
                   [("det_thresh", VFloat conf_thres);
                    ("max_age", VInt max_age);
                    ("min_hits", VInt min_hits);
                    ("iou_thresh", VFloat iou_thresh);
                    ("delta_t", VInt delta_t);
                    ("asso_func", asso_func);
                    ("inertia", VFloat inertia);
                    ("use_byte", use_byte)]]> d)
       else mret d);
  (* overwrite existing config for tracker *)
  f ← getattr self_opt tracking_config;
  emit (EvOpen f);;
  emit (EvYamlDump f d).

Definition nl : string := String (ascii_of_nat 10) EmptyString.
Definition tab : string := String (ascii_of_nat 9) EmptyString.

(** ** [max(iterable, key=...)]

    The first item is the running maximum; a later item replaces it only
    when its key is strictly greater, so of several maximal items the first
    is returned.  An empty iterable raises [ValueError]. *)
Fixpoint max_loop {A} (key : A -> result Q) (best : A) (best_key : Q) (l : list A)
  : result A :=
  match l with
  | [] => Ok best
  | x :: l' =>
      k ← key x;
      if Qle_bool k best_key then max_loop key best best_key l'
      else max_loop key x k l'
  end.

Definition py_max {A} (key : A -> result Q) (l : list A) : result A :=
  match l with
  | [] => Raise ValueError
  | x :: l' => k ← key x; max_loop key x k l'
  end.

(** [lambda t: t.values[i]] *)
Definition objective_value (i : nat) (t : FrozenTrial) : result Q :=
  match values t !! i with
  | Some v => Ok v
  | None => Raise IndexError
  end.

(** ** [int(text)] and [parse_opt] *)

(** The blanks [int] passes over at both ends of its text: tab to carriage
    return, the space, and of the characters above 127 the next-line
    control and the no-break space.  The separators 28 to 31 are no blanks
    for [int]. *)
Definition is_space (c : ascii) : bool :=
  let n := nat_of_ascii c in
  ((9 <=? n)%nat && (n <=? 13)%nat) || (n =? 32)%nat || (n =? 133)%nat || (n =? 160)%nat.

Fixpoint lstrip (s : string) : string :=
  match s with
  | String c s' => if is_space c then lstrip s' else s
  | EmptyString => s
  end.

Definition strip (s : string) : string :=
  String.rev (lstrip (String.rev (lstrip s))).

(** [sys.get_int_max_str_digits()], at its default *)
Definition int_max_str_digits : nat := 4300.

(** Decimal digits, single underscores allowed between two digits; [n]
    counts the digits, leading zeros included, and a text of more than
    [int_max_str_digits] digits is refused. *)
Fixpoint int_digits (s : string) (acc : Z) (n : nat) (after_digit : bool)
  : result Z :=
  match s with
  | EmptyString =>
      if after_digit && (n <=? int_max_str_digits)%nat then Ok acc
      else Raise ValueError
  | String c s' =>
      if is_digit c
      then int_digits s' (10 * acc + (Z.of_nat (nat_of_ascii c) - 48)) (S n) true
      else if Ascii.eqb c "_" && after_digit then int_digits s' acc n false
      else Raise ValueError
  end.

Definition py_int (s : string) : result Z :=
  match strip s with
  | String c s' =>
      if Ascii.eqb c "-" then Z.opp <$> int_digits s' 0 0 false
      else if Ascii.eqb c "+" then int_digits s' 0 0 false
      else int_digits (String c s') 0 0 false
  | EmptyString => Raise ValueError
  end.

(** [try: a = int(a) except ValueError: pass], then [device.append(a)]:
    only [ValueError] is caught. *)
Definition device_entry (a : string) : result device_item :=
  match py_int a with
  | Ok n => Ok (DevInt n)
  | Raise ValueError => Ok (DevStr a)
  | Raise e => Raise e
  end.

Section Paths.

(** [ROOT] and the division of [pathlib.Path], both outside this file's
    control. *)
Variable ROOT : string.
Variable path_div : string -> string -> string.

(** [parse_opt], from the parsed arguments on ([print_args] only logs). *)
Definition parse_opt (args : Namespace) : result Opt :=
  let tracking_config :=
    path_div (path_div (path_div (path_div ROOT "trackers") (arg_tracking_method args))
                       "configs")
             (arg_tracking_method args ++ ".yaml") in
  device ← comprehension device_entry (split "," (arg_device args));
  Ok (mkOpt (arg_tracking_method args) tracking_config (arg_conf_thres args) None
            device (arg_n_trials args) (arg_resume args)).

End Paths.

(** ** [save_plots] *)

Definition save_plots (opt : nat) (study : Study) : M unit :=
  let fig := ParetoFront study ["HOTA"; "MOTA"; "IDF1"] in
  tm ← getattr opt tracking_method;
  emit (EvWriteHtml ("pareto_front_" ++ tm ++ ".html") fig);;
  n ← getattr opt n_trials;
  if negb (n <=? 1) then  (* more than one trial needed for parameter importance *)
    let fig := ParamImportances study 0 "HOTA" in
    tm ← getattr opt tracking_method;
    emit (EvWriteHtml ("HOTA_param_importances_" ++ tm ++ ".html") fig);;
    let fig := ParamImportances study 1 "MOTA" in
    tm ← getattr opt tracking_method;
    emit (EvWriteHtml ("MOTA_param_importances_" ++ tm ++ ".html") fig);;
    let fig := ParamImportances study 2 "IDF1" in
    tm ← getattr opt tracking_method;
    emit (EvWriteHtml ("IDF1_param_importances_" ++ tm ++ ".html") fig)
  else mret tt.

Section Collaborators.

(** [study.best_trials]: the non-dominated trials, as optuna's front search
    returns them. *)
Variable best_trials : Study -> list FrozenTrial.

(** [Evaluator.run], called on the instance (its [opt] is [self_opt]) with
    one argument: the report it returns. *)
Variable run : nat -> nat -> World -> string.

(** [study.optimize(objective, n_trials=n)] and [joblib.load(path)]. *)
Variable optimize : Study -> (Trial -> M (Q * Q * Q)) -> Z -> M Study.
Variable joblib_load : string -> M Study.

Variable ROOT : string.
Variable path_div : string -> string -> string.

(** ** [Objective.__call__] *)

(** [self.run(arg)]: the call is recorded, the report returned. *)
Definition call_run (self_opt arg : nat) : M string :=
  fun w =>
    (Ok (run self_opt arg w),
     mkWorld (heap w) (globals w) (log w ++ [EvRun self_opt arg])%list).

Definition Objective_call (self_opt : nat) (trial : Trial) : M (Q * Q * Q) :=
  (* generate new set of params *)
  get_new_config self_opt trial;;
  (* run trial *)
  opt ← load_global "opt";
  results ← call_run self_opt opt;
  lift (parse_results results).

(** ** [print_best_trial_metric_results] *)

Definition print_trial (t : FrozenTrial) : M unit :=
  emit (EvPrint [Lit (tab ++ "number: "); FmtInt (number t)]);;
  emit (EvPrint [Lit (tab ++ "params: "); FmtParams (params t)]);;
  emit (EvPrint [Lit (tab ++ "values: "); FmtValues (values t)]).

Definition print_best_trial_metric_results (study : Study) : M unit :=
  emit (EvPrint [Lit "Number of trials on the Pareto front: ";
                 FmtInt (Z.of_nat (length (best_trials study)))]);;
  trial_with_highest_HOTA ← lift (py_max (objective_value 0) (best_trials study));
  emit (EvPrint [Lit "Trial with highest HOTA: "]);;
  print_trial trial_with_highest_HOTA;;
  trial_with_highest_MOTA ← lift (py_max (objective_value 1) (best_trials study));
  emit (EvPrint [Lit "Trial with highest MOTA: "]);;
  print_trial trial_with_highest_MOTA;;
  trial_with_highest_IDF1 ← lift (py_max (objective_value 2) (best_trials study));
  emit (EvPrint [Lit "Trial with highest IDF1: "]);;
  print_trial trial_with_highest_IDF1.

(** ** [write_best_HOTA_params_to_config] *)

Definition write_best_HOTA_params_to_config (opt : nat) (study : Study) : M unit :=
  trial_with_highest_HOTA ← lift (py_max (objective_value 0) (best_trials study));
  tm ← getattr opt tracking_method;
  let d : gmap string (gmap string value) :=
    {[ tm := params trial_with_highest_HOTA ]} in
  f ← getattr opt tracking_config;
  emit (EvOpen f);;
  emit (EvWrite f [Lit "# Trial number:      ";
                   FmtInt (number trial_with_highest_HOTA); Lit nl]);;
  emit (EvWrite f [Lit "# HOTA, MOTA, IDF1:  ";
                   FmtValues (values trial_with_highest_HOTA); Lit nl]);;
  emit (EvYamlDump f d).

(** ** The script body ([if __name__ == "__main__":]) *)

(** A new namespace object, bound to no name yet. *)
Definition alloc (o : Opt) : M nat :=
  fun w =>
    let ref := fresh (dom (heap w)) in
    (Ok ref, mkWorld (<[ref := o]> (heap w)) (globals w) (log w)).

Definition store_global (name : string) (ref : nat) : M unit :=
  fun w => (Ok tt, mkWorld (heap w) (<[name := ref]> (globals w)) (log w)).

(** [opt.attr], [opt] being the module global *)
Definition opt_attr {A} (attr : Opt -> A) : M A :=
  opt ← load_global "opt"; getattr opt attr.

Definition main (args : Namespace) : M unit :=
  opt ← lift (parse_opt ROOT path_div args);
  opt ← alloc opt;
  store_global "opt" opt;;
  (* check_requirements: a check of the installation *)
  let objective_num := 3%nat in
  resume ← opt_attr resume;
  study ← (if resume : bool then
             (* resume from last saved study *)
             tm ← opt_attr tracking_method;
             joblib_load (tm ++ "_study.pkl")
           else
             mret (create_study (replicate objective_num Maximize)));
  opt ← load_global "opt";
  n ← opt_attr n_trials;
  study ← optimize study (Objective_call opt) n;
  (* save hps study, all trial results are stored here, used for resuming *)
  tm ← opt_attr tracking_method;
  emit (EvJoblibDump (tm ++ "_study.pkl") study);;
  opt ← load_global "opt";
  save_plots opt study;;
  print_best_trial_metric_results study;;
  opt ← load_global "opt";
  write_best_HOTA_params_to_config opt study.

End Collaborators.

(** ** Vocabulary of the statements and sample inputs *)

(** What line 162-163 make of the list of line 160. *)
Definition scores_of (vals : list Q) : result (Q * Q * Q) :=
  match vals with
  | hota :: mota :: idf1 :: _ => Ok (hota, mota, idf1)
  | [_; _] => Raise (KeyError "IDF1")
  | [_] => Raise (KeyError "MOTA")
  | [] => Raise (KeyError "HOTA")
  end.

Definition with_log (w : World) (evs : list event) : World :=
  mkWorld (heap w) (globals w) (log w ++ evs).

Definition with_heap (w : World) (h : gmap nat Opt) : World :=
  mkWorld h (globals w) (log w).

Definition config_events (f : string) (d : gmap string (gmap string value))
  : list event :=
  [EvOpen f; EvYamlDump f d].

(** The report of the spec's scenario: three marker lines carrying 55.2,
    61.0 and 58.7, then a last marker line. *)
Definition synthetic_report : string :=
  "...COMBINED... HOTA: 55.2 ..." ++ nl ++
  "...COMBINED... MOTA: 61.0 ..." ++ nl ++
  "...COMBINED... IDF1: 58.7 ..." ++ nl ++
  "...COMBINED... Dets: 1234 ..." ++ nl.

(** A report laid out as the evaluation harness prints it: its settings
    first, where [PRINT_ONLY_COMBINED] already holds the marker, then one
    table per metric family whose COMBINED row starts with the score, then
    the table of counts. *)
Definition harness_report : string :=
  "PRINT_ONLY_COMBINED : False" ++ nl ++
  "HOTA: labels          HOTA      DetA" ++ nl ++
  "COMBINED              55.2      50.1" ++ nl ++
  "CLEAR: labels         MOTA      MOTP" ++ nl ++
  "COMBINED              61.0      80.3" ++ nl ++
  "Identity: labels      IDF1      IDR" ++ nl ++
  "COMBINED              58.7      60.2" ++ nl ++
  "Count: labels         Dets      IDs" ++ nl ++
  "COMBINED              1234      77" ++ nl.

Definition sample_scores : Q * Q * Q :=
  (decimal false 552 1, decimal false 610 1, decimal false 587 1).

(** A sampler that answers every float request with the upper end of the
    range, every integer request with the second step and every
    categorical request with the first choice. *)
Definition sample_trial : Trial :=
  mkTrial (fun _ lo hi => hi)
          (fun _ lo _ step => lo + step)
          (fun _ choices => hd (VInt 0) choices).

Definition sample_opt (method : string) : Opt :=
  mkOpt method ("trackers/" ++ method ++ "/configs/" ++ method ++ ".yaml")
        0.45 None [DevInt 0] 10 false.

(** One namespace, bound to the global [opt] or not. *)
Definition sample_world (method : string) (bound : bool) : World :=
  mkWorld {[ 0%nat := sample_opt method ]}
          (if bound then {[ "opt" := 0%nat ]} else ∅) [].

Definition sample_path_div (a b : string) : string := a ++ "/" ++ b.

Definition importance_events (tm : string) (study : Study) : list event :=
  [EvWriteHtml ("HOTA_param_importances_" ++ tm ++ ".html")
               (ParamImportances study 0 "HOTA");
   EvWriteHtml ("MOTA_param_importances_" ++ tm ++ ".html")
               (ParamImportances study 1 "MOTA");
   EvWriteHtml ("IDF1_param_importances_" ++ tm ++ ".html")
               (ParamImportances study 2 "IDF1")].

(** [t.values[0]] where the trial has values *)
Definition first_value (t : FrozenTrial) : Q := hd 0%Q (values t).

(** What [write_best_HOTA_params_to_config] writes for the trial [t]. *)
Definition best_config_events (f tm : string) (t : FrozenTrial) : list event :=
  [EvOpen f;
   EvWrite f [Lit "# Trial number:      "; FmtInt (number t); Lit nl];
   EvWrite f [Lit "# HOTA, MOTA, IDF1:  "; FmtValues (values t); Lit nl];
   EvYamlDump f {[ tm := params t ]}].

Definition sample_front : list FrozenTrial :=
  [mkFrozenTrial 0 {[ "max_age" := VInt 20 ]} [decimal false 552 1; 61%Q; 50%Q];
   mkFrozenTrial 3 {[ "max_age" := VInt 30 ]} [decimal false 587 1; 60%Q; 52%Q];
   mkFrozenTrial 4 {[ "max_age" := VInt 40 ]} [decimal false 587 1; 59%Q; 53%Q]].

(** A computation that only adds to the trace. *)
Definition appends {A} (c : M A) : Prop :=
  forall w, exists r evs, c w = (r, with_log w evs).

(** A stand-in for the optimizer that runs one trial with [sample_trial]
    and records its scores. *)
Definition one_trial_optimize (study : Study) (objective : Trial -> M (Q * Q * Q))
    (n : Z) : M Study :=
  fun w =>
    match objective sample_trial w with
    | (Ok (hota, mota, idf1), w') =>
        (Ok (mkStudy (directions study)
                     (trials study ++
                      [mkFrozenTrial (Z.of_nat (length (trials study))) ∅
                                     [hota; mota; idf1]])), w')
    | (Raise e, w') => (Raise e, w')
    end.


Definition sample_checkpoint : Study :=
  mkStudy [Maximize; Maximize; Maximize]
          [mkFrozenTrial 0 ∅ [decimal false 552 1; decimal false 610 1; decimal false 587 1]].

(** [any(c.isdigit() for c in s)], on ASCII *)
Fixpoint has_digit (s : string) : bool :=
  match s with
  | EmptyString => false
  | String c s' => is_digit c || has_digit s'
  end.

(** A character the number pattern can take: a sign, a digit or a dot. *)
Definition is_numeric_char (c : ascii) : bool :=
  is_sign c || is_digit c || is_dot c.

(** A text none of whose characters the number pattern can take. *)
Fixpoint numeric_free (s : string) : bool :=
  match s with
  | EmptyString => true
  | String c s' => negb (is_numeric_char c) && numeric_free s'
  end.

Fixpoint all_digits (s : string) : bool :=
  match s with
  | EmptyString => true
  | String c s' => is_digit c && all_digits s'
  end.

(** The number a text of decimal digits denotes, read after [acc]. *)
Fixpoint digits_value (s : string) (acc : Z) : Z :=
  match s with
  | EmptyString => acc
  | String c s' => digits_value s' (10 * acc + (Z.of_nat (nat_of_ascii c) - 48))
  end.

(** A text that does not go on with a digit. *)
Definition no_digit_ahead (s : string) : bool :=
  match s with
  | EmptyString => true
  | String c _ => negb (is_digit c)
  end.

(** The tracker types [get_new_config] has a branch for. *)
Definition known_tracker (tm : string) : bool :=
  String.eqb tm "strongsort" || String.eqb tm "bytetrack" || String.eqb tm "ocsort".

(** [t.values[i]] where the trial has that many values *)
Definition value_at (i : nat) (t : FrozenTrial) : Q := nth i (values t) 0%Q.

(** [t] is the first item of [l] whose key is the greatest. *)
Definition first_max {A} (kf : A -> Q) (l : list A) (t : A) : Prop :=
  exists pre post,
    l = (pre ++ t :: post)%list /\
    (forall u, In u pre -> (kf u < kf t)%Q) /\
    (forall u, In u post -> (kf u <= kf t)%Q).

(** The three lines [print_best_trial_metric_results] prints for a trial. *)
Definition trial_lines (t : FrozenTrial) : list event :=
  [EvPrint [Lit (tab ++ "number: "); FmtInt (number t)];
   EvPrint [Lit (tab ++ "params: "); FmtParams (params t)];
   EvPrint [Lit (tab ++ "values: "); FmtValues (values t)]].

Definition front_size_line (n : nat) : event :=
  EvPrint [Lit "Number of trials on the Pareto front: "; FmtInt (Z.of_nat n)].

(** All that [print_best_trial_metric_results] prints when it returns. *)
Definition best_lines (n : nat) (hota mota idf1 : FrozenTrial) : list event :=
  (front_size_line n
   :: EvPrint [Lit "Trial with highest HOTA: "] :: trial_lines hota
   ++ EvPrint [Lit "Trial with highest MOTA: "] :: trial_lines mota
   ++ EvPrint [Lit "Trial with highest IDF1: "] :: trial_lines idf1)%list.

(** The figures [save_plots] writes for [n_trials] requested trials. *)
Definition plot_events (tm : string) (n_trials : Z) (study : Study) : list event :=
  EvWriteHtml ("pareto_front_" ++ tm ++ ".html")
              (ParetoFront study ["HOTA"; "MOTA"; "IDF1"])
  :: (if 1 <? n_trials then importance_events tm study else []).

(** The rest of the script once [study.optimize] has returned. *)
Definition script_after_optimize (best_trials : Study -> list FrozenTrial)
    (study : Study) : M unit :=
  tm ← opt_attr tracking_method;
  emit (EvJoblibDump (tm ++ "_study.pkl") study);;
  opt ← load_global "opt";
  save_plots opt study;;
  print_best_trial_metric_results best_trials study;;
  opt ← load_global "opt";
  write_best_HOTA_params_to_config best_trials opt study.

(** The world in which the script reads [opt.resume]: a new namespace,
    bound to the global [opt]. *)
Definition script_world (w : World) (o : Opt) : World :=
  mkWorld (<[fresh (dom (heap w)) := o]> (heap w))
          (<["opt" := fresh (dom (heap w))]> (globals w)) (log w).

(** [s.count(',')] *)
Fixpoint count_commas (s : string) : nat :=
  match s with
  | EmptyString => O
  | String c s' => ((if Ascii.eqb c "," then 1 else 0) + count_commas s')%nat
  end.


Definition resume_args : Namespace := mkNamespace "ocsort" 0.45 "0,1" 1 true.


(** A stand-in for [Evaluator.run] that, as the tracker does, reads the
    configuration file named by its argument: it returns the harness's
    report when the bytetrack 'track_thresh' there is 0.45 and a report
    without tables otherwise. *)
Definition config_reading_run (self_opt arg : nat) (w : World) : string :=
  match heap w !! arg with
  | Some o =>
      match replay (log w) ∅ !! tracking_config o with
      | Some [Yaml d] =>
          match d !! "bytetrack" with
          | Some cfg =>
              match cfg !! "track_thresh" with
              | Some (VFloat x) =>
                  if Qeq_bool x 0.45 then harness_report else "no tables"
              | _ => "no tables"
              end
          | None => "no tables"
          end
      | _ => "no tables"
      end
  | None => "no tables"
  end.

(** Two bytetrack namespaces: the one the global [opt] names, and another
    one, for an instance, with the confidence threshold [conf]. *)
Definition two_namespaces (conf : Q) : World :=
  mkWorld (<[1%nat := set_conf_thres conf (sample_opt "bytetrack")]>
             {[ 0%nat := sample_opt "bytetrack" ]})
          {[ "opt" := 0%nat ]} [].

(** * Properties *)

(** ** The primitives on sample texts *)

Example split_marker :
  split "COMBINED" "aCOMBINEDbCOMBINEDCOMBINEDc" = ["a"; "b"; ""; "c"].
Proof. reflexivity. Qed.

Example split_empty_text : split "," "" = [""].
Proof. reflexivity. Qed.

Example slice_of_five : py_slice [0; 1; 2; 3; 4] 2 (-1) = [2; 3].
Proof. reflexivity. Qed.

Example slice_of_three : py_slice [0; 1; 2] 2 (-1) = [].
Proof. reflexivity. Qed.

(** Greedy runs with backtracking: ["5."] gives back its dot, ["12.34.56"]
    splits after the second run of digits, and several dots in a row are
    part of the match. *)
Example findall_numbers :
  findall number_pattern "a 1..2 -3 +.5 ..7 5. 12.34.56 - 9"
  = ["1..2"; "-3"; "+.5"; "..7"; "5"; "12.34"; ".56"; "9"].
Proof. reflexivity. Qed.

Example float_of_tokens :
  map py_float ["55.2"; "-3"; "+.5"; "007"; "1..2"; "..7"]
  = [Ok (decimal false 552 1); Ok (decimal true 3 0); Ok (decimal false 5 1);
     Ok (decimal false 7 0); Raise ValueError; Raise ValueError].
Proof. vm_compute. reflexivity. Qed.

Example int_of_tokens :
  map py_int ["0"; " 12 "; "-3"; "1_000"; ""; "cpu"; "1_"; "0.5"]
  = [Ok 0; Ok 12; Ok (-3); Ok 1000; Raise ValueError; Raise ValueError;
     Raise ValueError; Raise ValueError].
Proof. vm_compute. reflexivity. Qed.

(** ** The report parser *)

Lemma split_without_marker sep s :
  contains sep s = false -> split sep s = [s].
Proof.
  unfold split. induction s as [|c s IH]; intros H.
  - reflexivity.
  - cbn [contains] in H. apply orb_false_iff in H as [Hp Hc].
    cbn [split_from]. rewrite Hp, (IH Hc). reflexivity.
Qed.

Lemma py_slice_inner {A} (p0 p1 plast : A) (mid : list A) :
  py_slice (p0 :: p1 :: mid ++ [plast]) 2 (-1) = mid.
Proof.
  unfold py_slice, slice_index.
  cbn [length]. rewrite length_app. cbn [length].
  replace (Z.of_nat (S (S (length mid + 1)))) with (Z.of_nat (length mid) + 3) by lia.
  cbn [Z.ltb Z.compare].
  rewrite Z.min_l by lia. rewrite Z.max_r by lia.
  replace (Z.to_nat (-1 + (Z.of_nat (length mid) + 3) - 2)) with (length mid) by lia.
  change (Z.to_nat 2) with 2%nat. cbn [skipn].
  apply take_app_length.
Qed.

Lemma py_slice_short {A} (l : list A) :
  (length l <= 3)%nat -> py_slice l 2 (-1) = [].
Proof.
  intros H. unfold py_slice, slice_index.
  cbn [Z.ltb Z.compare].
  replace (Z.to_nat _) with 0%nat; [reflexivity|].
  lia.
Qed.

Lemma comprehension_length {A B} (f : A -> result B) l ys :
  comprehension f l = Ok ys -> length ys = length l.
Proof.
  revert ys. induction l as [|x l IH]; intros ys H; cbn in H.
  - injection H as <-. reflexivity.
  - destruct (f x) as [y|e]; cbn in H; [|discriminate].
    destruct (comprehension f l) as [ys'|e]; cbn in H; [|discriminate].
    injection H as <-. cbn. f_equal. apply IH. reflexivity.
Qed.

Lemma parse_results_scores report vals :
  extract_values report = Ok vals -> parse_results report = scores_of vals.
Proof.
  intros H. unfold parse_results. rewrite H. cbn [mbind result_bind].
  destruct vals as [|h [|m [|i rest]]]; reflexivity.
Qed.

Lemma parse_results_raise report e :
  extract_values report = Raise e -> parse_results report = Raise e.
Proof. intros H. unfold parse_results. rewrite H. reflexivity. Qed.

(** ** Stepping through computations on the world *)

Lemma with_log_nil w : with_log w [] = w.
Proof. destruct w. unfold with_log. cbn. rewrite app_nil_r. reflexivity. Qed.

Lemma with_log_app w evs evs' :
  with_log (with_log w evs) evs' = with_log w (evs ++ evs').
Proof. unfold with_log. cbn. rewrite <- app_assoc. reflexivity. Qed.


Lemma bind_lift_ok {A B} (a : A) (f : A -> M B) w : (lift (Ok a) ≫= f) w = f a w.
Proof. reflexivity. Qed.

Lemma bind_lift_raise {A B} e (f : A -> M B) w :
  (lift (Raise e) ≫= f) w = (Raise e, w).
Proof. reflexivity. Qed.

Lemma bind_emit {B} e (f : unit -> M B) w :
  (emit e ≫= f) w = f tt (with_log w [e]).
Proof. reflexivity. Qed.

Lemma bind_getattr {A B} ref (attr : Opt -> A) (f : A -> M B) w o :
  heap w !! ref = Some o -> (getattr ref attr ≫= f) w = f (attr o) w.
Proof. intros H. unfold mbind, M_bind, getattr. rewrite H. reflexivity. Qed.

Lemma bind_setattr {B} ref upd (f : unit -> M B) w o :
  heap w !! ref = Some o ->
  (setattr ref upd ≫= f) w = f tt (with_heap w (<[ref := upd o]> (heap w))).
Proof. intros H. unfold mbind, M_bind, setattr. rewrite H. reflexivity. Qed.

Lemma bind_load_global {B} name (f : nat -> M B) w ref :
  globals w !! name = Some ref -> (load_global name ≫= f) w = f ref w.
Proof. intros H. unfold mbind, M_bind, load_global. rewrite H. reflexivity. Qed.

Lemma bind_assoc_M {A B C} (c : M A) (f : A -> M B) (g : B -> M C) w :
  ((c ≫= f) ≫= g) w = (c ≫= (fun a => f a ≫= g)) w.
Proof.
  unfold mbind, M_bind. destruct (c w) as [[a|e] w']; reflexivity.
Qed.

Lemma emit_run e w : emit e w = (Ok tt, with_log w [e]).
Proof. reflexivity. Qed.

(** ** Running [get_new_config] *)

Lemma write_config (c : M (gmap string (gmap string value))) w w1 d self o :
  c w = (Ok d, w1) -> heap w1 !! self = Some o -> log w1 = log w ->
  (d ← c; f ← getattr self tracking_config; emit (EvOpen f);; emit (EvYamlDump f d)) w
  = (Ok tt, with_log w1 (config_events (tracking_config o) d)).
Proof.
  intros Hc Ho Hl. unfold mbind at 1. unfold M_bind at 1. rewrite Hc.
  rewrite (bind_getattr _ _ _ _ _ Ho), bind_emit, emit_run, with_log_app.
  reflexivity.
Qed.

Lemma get_new_config_runs self trial w o :
  heap w !! self = Some o ->
  exists o' d,
    get_new_config self trial w
    = (Ok tt, with_log (with_heap w (<[self := o']> (heap w)))
                       (config_events (tracking_config o) d)) /\
    tracking_method o' = tracking_method o /\
    tracking_config o' = tracking_config o /\
    n_trials o' = n_trials o /\
    resume o' = resume o.
Proof.
  intros H. unfold get_new_config.
  rewrite (bind_getattr _ _ _ _ _ H).
  destruct (String.eqb (tracking_method o) "strongsort").
  { eexists (set_conf_thres _ o), _. split.
    - erewrite write_config with (o := set_conf_thres _ o); [reflexivity| | |].
      + rewrite (bind_setattr _ _ _ _ _ H). reflexivity.
      + apply lookup_insert_eq.
      + reflexivity.
    - cbn. auto. }
  destruct (String.eqb (tracking_method o) "bytetrack").
  { eexists (set_track_thres _ o), _. split.
    - erewrite write_config with (o := set_track_thres _ o); [reflexivity| | |].
      + rewrite (bind_setattr _ _ _ _ _ H).
        erewrite bind_getattr by apply lookup_insert_eq. reflexivity.
      + apply lookup_insert_eq.
      + reflexivity.
    - cbn. auto. }
  destruct (String.eqb (tracking_method o) "ocsort").
  { eexists (set_conf_thres _ o), _. split.
    - erewrite write_config with (o := set_conf_thres _ o); [reflexivity| | |].
      + rewrite (bind_setattr _ _ _ _ _ H).
        erewrite bind_getattr by apply lookup_insert_eq. reflexivity.
      + apply lookup_insert_eq.
      + reflexivity.
    - cbn. auto. }
  exists o, ∅. split; [|auto].
  erewrite write_config with (o := o) (w1 := w); [|reflexivity|exact H|reflexivity].
  unfold with_heap. rewrite insert_id by exact H. destruct w; reflexivity.
Qed.

Lemma get_new_config_ok_inv self trial w w1 :
  get_new_config self trial w = (Ok tt, w1) ->
  exists o o' d,
    heap w !! self = Some o /\
    w1 = with_log (with_heap w (<[self := o']> (heap w)))
                  (config_events (tracking_config o) d).
Proof.
  intros Hrun. destruct (heap w !! self) as [o|] eqn:H.
  - destruct (get_new_config_runs self trial w o H) as (o' & d & Heq & _).
    rewrite Heq in Hrun. injection Hrun as <-. eauto.
  - unfold get_new_config, mbind, M_bind, getattr in Hrun.
    rewrite H in Hrun. discriminate.
Qed.

(** ** Running [Objective.__call__] *)

Section CallProperties.

Variable run : nat -> nat -> World -> string.

Lemma Objective_call_with_global self trial w w1 g :
  get_new_config self trial w = (Ok tt, w1) ->
  globals w !! "opt" = Some g ->
  Objective_call run self trial w
  = (parse_results (run self g w1), with_log w1 [EvRun self g]).
Proof.
  intros Hcfg Hg.
  destruct (get_new_config_ok_inv _ _ _ _ Hcfg) as (o & o' & d & _ & Hw1).
  unfold Objective_call. unfold mbind at 1. unfold M_bind at 1. rewrite Hcfg.
  rewrite (bind_load_global _ _ _ g) by (subst w1; exact Hg).
  reflexivity.
Qed.

Lemma Objective_call_without_global self trial w w1 :
  get_new_config self trial w = (Ok tt, w1) ->
  globals w !! "opt" = None ->
  Objective_call run self trial w = (Raise (NameError "opt"), w1).
Proof.
  intros Hcfg Hg.
  destruct (get_new_config_ok_inv _ _ _ _ Hcfg) as (o & o' & d & _ & Hw1).
  unfold Objective_call. unfold mbind at 1. unfold M_bind at 1. rewrite Hcfg.
  unfold mbind, M_bind, load_global.
  replace (globals w1) with (globals w) by (subst w1; reflexivity).
  rewrite Hg. reflexivity.
Qed.

End CallProperties.

(** ** C1: from the report to the three scores *)

(** C1, as stated, fails on the spec's own scenario: of the pieces between
    the markers the code drops the first two and the last, so the 55.2 of
    the first marker line is skipped, only 61.0 and 58.7 are extracted and
    the lookup of IDF1 raises [KeyError]. *)
Lemma parse_results_synthetic_report_fails :
  parse_results synthetic_report = Raise (KeyError "IDF1") /\
  parse_results synthetic_report <> Ok sample_scores.
Proof.
  assert (H : parse_results synthetic_report = Raise (KeyError "IDF1"))
    by (vm_compute; reflexivity).
  split; [exact H|]. rewrite H. discriminate.
Qed.

(** C1 (amended): the report is split at every occurrence of the text
    COMBINED; the piece before the first occurrence, the piece behind the
    first occurrence and the piece behind the last occurrence are dropped;
    from each piece in between the first match of the number pattern is
    read as a float, and the first three of these numbers are returned as
    HOTA, MOTA and IDF1. *)
Theorem parse_results_inner_pieces report p0 p1 mid plast :
  split "COMBINED" report = p0 :: p1 :: mid ++ [plast] ->
  parse_results report = (vals ← comprehension first_number mid; scores_of vals).
Proof.
  intros Hsplit.
  assert (Hex : extract_values report = comprehension first_number mid).
  { unfold extract_values. rewrite Hsplit, py_slice_inner. reflexivity. }
  destruct (comprehension first_number mid) as [vals|e] eqn:Hvals.
  - rewrite (parse_results_scores _ _ Hex). reflexivity.
  - rewrite (parse_results_raise _ _ Hex). reflexivity.
Qed.

(** On the harness's layout the three scores are those of the COMBINED
    rows of the first three tables. *)
Lemma parse_results_harness_report :
  parse_results harness_report = Ok sample_scores.
Proof.
  rewrite (parse_results_inner_pieces harness_report
             "PRINT_ONLY_"
             (" : False" ++ nl ++ "HOTA: labels          HOTA      DetA" ++ nl)
             [("              55.2      50.1" ++ nl ++
               "CLEAR: labels         MOTA      MOTP" ++ nl);
              ("              61.0      80.3" ++ nl ++
               "Identity: labels      IDF1      IDR" ++ nl);
              ("              58.7      60.2" ++ nl ++
               "Count: labels         Dets      IDs" ++ nl)]
             ("              1234      77" ++ nl)).
  - vm_compute. reflexivity.
  - vm_compute. reflexivity.
Defined.

(** A label that holds a digit comes before the score: the number read
    from a piece that names IDF1 is the 1 of the label. *)
Lemma first_number_reads_label_digit :
  first_number "... IDF1: 58.7 ..." = Ok (decimal false 1 0) /\
  parse_results ("PRINT_ONLY_COMBINED" ++ nl ++ synthetic_report)
  = Ok (decimal false 552 1, decimal false 610 1, decimal false 1 0).
Proof. split; vm_compute; reflexivity. Qed.

(** ** C4 and C9: too few and too many numbers *)

Section ReportProperties.

Variable run : nat -> nat -> World -> string.

(** C4: when the report the evaluation returns does not hold the marker,
    or fewer than three numbers come out of it, the call raises: no score
    is returned. *)
Theorem Objective_call_incomplete_report_raises self trial w w1 g :
  get_new_config self trial w = (Ok tt, w1) ->
  globals w !! "opt" = Some g ->
  (contains "COMBINED" (run self g w1) = false \/
   forall vals, extract_values (run self g w1) = Ok vals -> (length vals < 3)%nat) ->
  exists e,
    Objective_call run self trial w = (Raise e, with_log w1 [EvRun self g]).
Proof.
  intros Hcfg Hg Hrep.
  rewrite (Objective_call_with_global run _ _ _ _ _ Hcfg Hg).
  set (report := run self g w1) in *.
  assert (Hfew : forall vals, extract_values report = Ok vals -> (length vals < 3)%nat).
  { destruct Hrep as [Hno|Hfew]; [|exact Hfew].
    intros vals Hvals. unfold extract_values in Hvals.
    rewrite (split_without_marker _ _ Hno) in Hvals.
    rewrite py_slice_short in Hvals by (cbn; lia).
    injection Hvals as <-. cbn. lia. }
  destruct (extract_values report) as [vals|e] eqn:Hvals.
  - specialize (Hfew vals eq_refl).
    rewrite (parse_results_scores _ _ Hvals).
    destruct vals as [|h [|m [|i rest]]]; cbn in Hfew; try lia; cbn; eauto.
  - rewrite (parse_results_raise _ _ Hvals). eauto.
Qed.

(** C9: when more than three numbers come out of the report, the call
    returns the first three as HOTA, MOTA and IDF1 and raises nothing; the
    further numbers are not used. *)
Theorem Objective_call_extra_values_ignored self trial w w1 g vals :
  get_new_config self trial w = (Ok tt, w1) ->
  globals w !! "opt" = Some g ->
  extract_values (run self g w1) = Ok vals ->
  (3 < length vals)%nat ->
  exists hota mota idf1 rest,
    vals = hota :: mota :: idf1 :: rest /\ rest <> [] /\
    Objective_call run self trial w
    = (Ok (hota, mota, idf1), with_log w1 [EvRun self g]).
Proof.
  intros Hcfg Hg Hvals Hlen.
  rewrite (Objective_call_with_global run _ _ _ _ _ Hcfg Hg).
  rewrite (parse_results_scores _ _ Hvals).
  destruct vals as [|h [|m [|i [|x rest]]]]; cbn in Hlen; try lia.
  exists h, m, i, (x :: rest). repeat split. discriminate.
Qed.

End ReportProperties.

Lemma Objective_call_incomplete_report_raises_witness :
  let run := fun (_ _ : nat) (_ : World) => "Traceback: no tables printed" in
  let w := sample_world "ocsort" true in
  exists e,
    Objective_call run 0 sample_trial w
    = (Raise e, with_log (get_new_config 0 sample_trial w).2 [EvRun 0 0]).
Proof.
  intros run w.
  apply (Objective_call_incomplete_report_raises run 0 sample_trial w _ 0).
  - vm_compute. reflexivity.
  - vm_compute. reflexivity.
  - left. vm_compute. reflexivity.
Defined.

Lemma Objective_call_extra_values_ignored_witness :
  let run := fun (_ _ : nat) (_ : World) =>
    "COMBINED a COMBINED 1 COMBINED 2 COMBINED 3 COMBINED 4 COMBINED" in
  let w := sample_world "ocsort" true in
  exists hota mota idf1 rest,
    [decimal false 1 0; decimal false 2 0; decimal false 3 0; decimal false 4 0]
    = hota :: mota :: idf1 :: rest /\ rest <> [] /\
    Objective_call run 0 sample_trial w
    = (Ok (hota, mota, idf1),
       with_log (get_new_config 0 sample_trial w).2 [EvRun 0 0]).
Proof.
  intros run w.
  apply (Objective_call_extra_values_ignored run 0 sample_trial w _ 0).
  - vm_compute. reflexivity.
  - vm_compute. reflexivity.
  - vm_compute. reflexivity.
  - cbn. lia.
Defined.

(** ** C2 and C3: the configuration [get_new_config] writes *)

Ltac branch_taken H o' :=
  erewrite write_config with (o := o');
  [reflexivity
  |rewrite (bind_setattr _ _ _ _ _ H);
   try (erewrite bind_getattr by apply lookup_insert_eq); reflexivity
  |apply lookup_insert_eq
  |reflexivity].

Lemma get_new_config_unknown self trial w o :
  heap w !! self = Some o ->
  tracking_method o <> "strongsort" ->
  tracking_method o <> "bytetrack" ->
  tracking_method o <> "ocsort" ->
  get_new_config self trial w
  = (Ok tt, with_log w (config_events (tracking_config o) ∅)).
Proof.
  intros H H1 H2 H3. unfold get_new_config.
  rewrite (bind_getattr _ _ _ _ _ H).
  apply String.eqb_neq in H1, H2, H3. rewrite H1, H2, H3.
  erewrite write_config with (o := o) (w1 := w); [reflexivity|reflexivity|exact H|reflexivity].
Qed.

(** In the bytetrack branch the sample for "track_thres" goes to the new
    attribute [track_thres]; the mapping takes its 'track_thresh' from
    [conf_thres], which the branch never assigns. *)
Lemma get_new_config_bytetrack self trial w o :
  heap w !! self = Some o ->
  tracking_method o = "bytetrack" ->
  exists cfg,
    get_new_config self trial w
    = (Ok tt,
       with_log (with_heap w (<[self := set_track_thres
                                 (suggest_float trial "track_thres" 0.35 0.55) o]> (heap w)))
                (config_events (tracking_config o) {[ "bytetrack" := cfg ]})) /\
    cfg !! "track_thresh" = Some (VFloat (conf_thres o)) /\
    cfg !! "match_thresh" = Some (VFloat (suggest_float trial "match_thresh" 0.7 0.9)) /\
    cfg !! "track_buffer" = Some (VInt (suggest_int trial "track_buffer" 10 60 10)) /\
    cfg !! "frame_rate" = Some (VInt 30).
Proof.
  intros H Hm. unfold get_new_config.
  rewrite (bind_getattr _ _ _ _ _ H), Hm. cbn [String.eqb Ascii.eqb Bool.eqb].
  eexists. split.
  - branch_taken H (set_track_thres (suggest_float trial "track_thres" 0.35 0.55) o).
  - cbn [conf_thres set_track_thres]. repeat split; reflexivity.
Qed.

(** The ocsort branch, next to it, assigns its sample for "det_thresh" to
    [conf_thres] and writes that value. *)
Lemma get_new_config_ocsort self trial w o :
  heap w !! self = Some o ->
  tracking_method o = "ocsort" ->
  exists cfg,
    get_new_config self trial w
    = (Ok tt,
       with_log (with_heap w (<[self := set_conf_thres
                                 (suggest_float trial "det_thresh" 0.35 0.55) o]> (heap w)))
                (config_events (tracking_config o) {[ "ocsort" := cfg ]})) /\
    cfg !! "det_thresh" = Some (VFloat (suggest_float trial "det_thresh" 0.35 0.55)) /\
    cfg !! "max_age" = Some (VInt (suggest_int trial "max_age" 10 60 10)) /\
    cfg !! "min_hits" = Some (VInt (suggest_int trial "min_hits" 1 5 1)) /\
    cfg !! "iou_thresh" = Some (VFloat (suggest_float trial "iou_thresh" 0.1 0.4)) /\
    cfg !! "delta_t" = Some (VInt (suggest_int trial "delta_t" 1 5 1)) /\
    cfg !! "asso_func"
      = Some (suggest_categorical trial "asso_func" [VStr "iou"; VStr "giou"]) /\
    cfg !! "inertia" = Some (VFloat (suggest_float trial "inertia" 0.1 0.4)) /\
    cfg !! "use_byte"
      = Some (suggest_categorical trial "use_byte" [VBool true; VBool false]).
Proof.
  intros H Hm. unfold get_new_config.
  rewrite (bind_getattr _ _ _ _ _ H), Hm. cbn [String.eqb Ascii.eqb Bool.eqb].
  eexists. split.
  - branch_taken H (set_conf_thres (suggest_float trial "det_thresh" 0.35 0.55) o).
  - cbn [conf_thres set_conf_thres]. repeat split; reflexivity.
Qed.

(** The strongsort branch assigns its sample for "conf_thres" to
    [conf_thres], for the detector, and writes the tracker's nine
    parameters; the sample for "iou_thresh" is not used. *)
Lemma get_new_config_strongsort self trial w o :
  heap w !! self = Some o ->
  tracking_method o = "strongsort" ->
  exists cfg,
    get_new_config self trial w
    = (Ok tt,
       with_log (with_heap w (<[self := set_conf_thres
                                 (suggest_float trial "conf_thres" 0.35 0.55) o]> (heap w)))
                (config_events (tracking_config o) {[ "strongsort" := cfg ]})) /\
    dom cfg = list_to_set ["ecc"; "mc_lambda"; "ema_alpha"; "max_dist"; "max_iou_dist";
                           "max_unmatched_preds"; "max_age"; "n_init"; "nn_budget"] /\
    cfg !! "ema_alpha" = Some (VFloat (suggest_float trial "ema_alpha" 0.7 0.95)) /\
    cfg !! "max_dist" = Some (VFloat (suggest_float trial "max_dist" 0.1 0.4)) /\
    cfg !! "max_iou_dist" = Some (VFloat (suggest_float trial "max_iou_dist" 0.5 0.9)) /\
    cfg !! "max_age" = Some (VInt (suggest_int trial "max_age" 10 200 10)) /\
    cfg !! "n_init" = Some (VInt (suggest_int trial "n_init" 1 3 1)).
Proof.
  intros H Hm. unfold get_new_config.
  rewrite (bind_getattr _ _ _ _ _ H), Hm. cbn [String.eqb Ascii.eqb Bool.eqb].
  eexists. split.
  - branch_taken H (set_conf_thres (suggest_float trial "conf_thres" 0.35 0.55) o).
  - split; [|repeat split; reflexivity].
    unfold dict_of. cbn [foldl fst snd]. rewrite !dom_insert_L, dom_empty_L.
    cbn [list_to_set foldr]. set_solver.
Qed.

(** C2, as stated, fails: for a tracker type without a parameter space
    [get_new_config] raises nothing; it writes the empty mapping to the
    configuration path and returns. *)
Lemma get_new_config_unknown_tracker_returns :
  get_new_config 0 sample_trial (sample_world "deepsort" true)
  = (Ok tt,
     with_log (sample_world "deepsort" true)
              [EvOpen "trackers/deepsort/configs/deepsort.yaml";
               EvYamlDump "trackers/deepsort/configs/deepsort.yaml" ∅]).
Proof. vm_compute. reflexivity. Qed.

Section UnknownTracker.

Variable run : nat -> nat -> World -> string.

(** C2 (amended): [get_new_config] has no check of the tracker type.  When
    a call for a tracker type other than strongsort, bytetrack and ocsort
    returns, that is when the configuration file could be opened, it has
    left the namespace as it was and overwritten the file with the empty
    mapping, and the trial goes on to the evaluation. *)
Theorem get_new_config_unknown_tracker self trial w o w1 :
  heap w !! self = Some o ->
  tracking_method o <> "strongsort" ->
  tracking_method o <> "bytetrack" ->
  tracking_method o <> "ocsort" ->
  get_new_config self trial w = (Ok tt, w1) ->
  w1 = with_log w (config_events (tracking_config o) ∅) /\
  (forall fs, replay (log w1) fs !! tracking_config o = Some [Yaml ∅]) /\
  (forall g, globals w !! "opt" = Some g ->
     Objective_call run self trial w
     = (parse_results (run self g w1), with_log w1 [EvRun self g])).
Proof.
  intros H H1 H2 H3 Hcfg.
  pose proof (get_new_config_unknown self trial w o H H1 H2 H3) as Hrun.
  assert (Hw1 : w1 = with_log w (config_events (tracking_config o) ∅)) by congruence.
  split; [exact Hw1|]. split.
  - intros fs. rewrite Hw1. unfold with_log, replay. cbn [log].
    rewrite foldl_app. cbn [foldl config_events apply_event].
    rewrite lookup_alter_eq, lookup_insert_eq. reflexivity.
  - intros g Hg. exact (Objective_call_with_global run _ _ _ _ _ Hcfg Hg).
Qed.

End UnknownTracker.

Lemma get_new_config_unknown_tracker_witness :
  let run := fun (_ _ : nat) (_ : World) => harness_report in
  let w := sample_world "deepsort" true in
  let w1 := with_log w (config_events (tracking_config (sample_opt "deepsort")) ∅) in
  w1 = with_log w (config_events (tracking_config (sample_opt "deepsort")) ∅) /\
  (forall fs, replay (log w1) fs !! tracking_config (sample_opt "deepsort")
              = Some [Yaml ∅]) /\
  (forall g, globals w !! "opt" = Some g ->
     Objective_call run 0 sample_trial w
     = (parse_results (run 0%nat g w1), with_log w1 [EvRun 0 g])).
Proof.
  intros run w w1.
  apply (get_new_config_unknown_tracker run 0 sample_trial w (sample_opt "deepsort") w1).
  - vm_compute. reflexivity.
  - discriminate.
  - discriminate.
  - discriminate.
  - vm_compute. reflexivity.
Defined.

(** C3 on bytetrack: with [conf_thres] at its default 0.45 and a sampler
    that proposes 0.55 for "track_thres", the mapping written to the
    configuration path has 'track_thresh' 0.45; the 0.55 is left in the
    attribute [track_thres] of the namespace. *)
Theorem get_new_config_bytetrack_track_thresh :
  let w := sample_world "bytetrack" true in
  let f := "trackers/bytetrack/configs/bytetrack.yaml" in
  exists w1 d cfg o',
    get_new_config 0 sample_trial w = (Ok tt, w1) /\
    replay (log w1) ∅ !! f = Some [Yaml d] /\
    d !! "bytetrack" = Some cfg /\
    cfg !! "track_thresh" = Some (VFloat 0.45) /\
    suggest_float sample_trial "track_thres" 0.35 0.55 = 0.55%Q /\
    cfg !! "track_thresh"
      <> Some (VFloat (suggest_float sample_trial "track_thres" 0.35 0.55)) /\
    heap w1 !! 0%nat = Some o' /\ track_thres o' = Some 0.55%Q.
Proof.
  intros w f.
  destruct (get_new_config_bytetrack 0 sample_trial w (sample_opt "bytetrack"))
    as (cfg & Hcfg & Ht & _); [reflexivity|reflexivity|].
  eexists _, _, cfg, _. split; [exact Hcfg|].
  split; [|split; [|split; [|split; [|split; [|split]]]]].
  - cbn. rewrite lookup_alter_eq, lookup_insert_eq. reflexivity.
  - apply lookup_singleton_eq.
  - exact Ht.
  - reflexivity.
  - rewrite Ht. cbn. intros [=].
  - cbn. apply lookup_insert_eq.
  - reflexivity.
Qed.

(** ** C8: the device list of [parse_opt] *)

Lemma int_digits_raises s acc n b e :
  int_digits s acc n b = Raise e -> e = ValueError.
Proof.
  revert acc n b. induction s as [|c s IH]; intros acc n b H; cbn [int_digits] in H.
  - destruct (b && (n <=? int_max_str_digits)%nat); congruence.
  - destruct (is_digit c); [exact (IH _ _ _ H)|].
    destruct (Ascii.eqb c "_" && b); [exact (IH _ _ _ H)|congruence].
Qed.

Lemma py_int_raises a e : py_int a = Raise e -> e = ValueError.
Proof.
  unfold py_int. destruct (strip a) as [|c s]; [congruence|].
  destruct (Ascii.eqb c "-").
  { destruct (int_digits s 0 0 false) eqn:Hd; cbn; [discriminate|].
    intros [= <-]. exact (int_digits_raises _ _ _ _ _ Hd). }
  destruct (Ascii.eqb c "+"); apply int_digits_raises.
Qed.

Lemma device_entry_cases a :
  (exists n, py_int a = Ok n /\ device_entry a = Ok (DevInt n)) \/
  (py_int a = Raise ValueError /\ device_entry a = Ok (DevStr a)).
Proof.
  unfold device_entry. destruct (py_int a) as [n|e] eqn:Ha.
  - left. eauto.
  - right. rewrite (py_int_raises _ _ Ha). auto.
Qed.

(** C8, as stated, fails: a device text whose tokens are no device
    identifiers is taken as it is; [parse_opt] returns its namespace with
    the tokens kept as text. *)
Lemma parse_opt_keeps_malformed_device :
  parse_opt "." sample_path_div (mkNamespace "strongsort" 0.45 "0,,gpu#1" 10 false)
  = Ok (mkOpt "strongsort" "./trackers/strongsort/configs/strongsort.yaml" 0.45 None
              [DevInt 0; DevStr ""; DevStr "gpu#1"] 10 false).
Proof. vm_compute. reflexivity. Qed.

Lemma parse_opt_returns ROOT path_div args :
  exists o,
    parse_opt ROOT path_div args = Ok o /\
    tracking_method o = arg_tracking_method args /\
    n_trials o = arg_n_trials args /\
    resume o = arg_resume args /\
    Forall2 (fun a entry =>
               (exists n, py_int a = Ok n /\ entry = DevInt n) \/
               (py_int a = Raise ValueError /\ entry = DevStr a))
            (split "," (arg_device args)) (device o).
Proof.
  assert (Hdev : forall tokens, exists dev,
    comprehension device_entry tokens = Ok dev /\
    Forall2 (fun a entry =>
               (exists n, py_int a = Ok n /\ entry = DevInt n) \/
               (py_int a = Raise ValueError /\ entry = DevStr a)) tokens dev).
  { induction tokens as [|a tokens (dev & Hc & Hall)].
    - exists []. split; [reflexivity|constructor].
    - cbn [comprehension].
      destruct (device_entry_cases a) as [(n & Ha & He)|[Ha He]]; rewrite He.
      + exists (DevInt n :: dev). unfold mbind, result_bind. rewrite Hc.
        split; [reflexivity|]. constructor; [left; eauto|exact Hall].
      + exists (DevStr a :: dev). unfold mbind, result_bind. rewrite Hc.
        split; [reflexivity|]. constructor; [right; eauto|exact Hall]. }
  destruct (Hdev (split "," (arg_device args))) as (dev & Hc & Hall).
  eexists. unfold parse_opt. rewrite Hc. cbn.
  split; [reflexivity|]. cbn. auto.
Qed.

(** C8 (amended): [parse_opt] rejects no device text.  The text is split
    at its commas; a token that [int] accepts becomes that integer and any
    other token is kept as text; the namespace is returned with this list
    as [device]. *)
Theorem parse_opt_accepts_any_device ROOT path_div args :
  exists o,
    parse_opt ROOT path_div args = Ok o /\
    tracking_method o = arg_tracking_method args /\
    n_trials o = arg_n_trials args /\
    resume o = arg_resume args /\
    Forall2 (fun a entry =>
               (exists n, py_int a = Ok n /\ entry = DevInt n) \/
               (py_int a = Raise ValueError /\ entry = DevStr a))
            (split "," (arg_device args)) (device o).
Proof. apply parse_opt_returns. Qed.

(** ** C7: the figures of [save_plots] *)

(** C7: [save_plots] always writes the Pareto front first; it asks for the
    three parameter importance figures, one file per objective, exactly
    when more than one trial was requested, and otherwise does not ask for
    them at all. *)
Theorem save_plots_figures opt study w o :
  heap w !! opt = Some o ->
  exists evs,
    save_plots opt study w
    = (Ok tt,
       with_log w (EvWriteHtml ("pareto_front_" ++ tracking_method o ++ ".html")
                               (ParetoFront study ["HOTA"; "MOTA"; "IDF1"]) :: evs)) /\
    (1 < n_trials o -> evs = importance_events (tracking_method o) study) /\
    (n_trials o <= 1 -> evs = []) /\
    ((exists path i name, In (EvWriteHtml path (ParamImportances study i name)) evs)
     <-> 1 < n_trials o).
Proof.
  intros H. unfold save_plots.
  rewrite (bind_getattr _ _ _ _ _ H), bind_emit.
  assert (H' : heap (with_log w
            [EvWriteHtml ("pareto_front_" ++ tracking_method o ++ ".html")
                         (ParetoFront study ["HOTA"; "MOTA"; "IDF1"])]) !! opt = Some o)
    by exact H.
  rewrite (bind_getattr _ _ _ _ _ H').
  destruct (n_trials o <=? 1) eqn:Hn; cbn [negb].
  - apply Z.leb_le in Hn. exists []. split; [reflexivity|].
    split; [lia|]. split; [reflexivity|].
    split; [intros (? & ? & ? & [])|lia].
  - apply Z.leb_gt in Hn. exists (importance_events (tracking_method o) study).
    split.
    + rewrite (bind_getattr _ _ _ _ _ H'), bind_emit.
      erewrite bind_getattr by exact H. rewrite bind_emit.
      erewrite bind_getattr by exact H. rewrite emit_run, !with_log_app.
      reflexivity.
    + split; [reflexivity|]. split; [lia|].
      split; [intros _; exact Hn|]. intros _.
      eexists _, _, _. left. reflexivity.
Qed.

Lemma save_plots_figures_witness :
  let study := create_study [Maximize; Maximize; Maximize] in
  let w := sample_world "ocsort" true in
  exists evs,
    save_plots 0 study w
    = (Ok tt,
       with_log w (EvWriteHtml "pareto_front_ocsort.html"
                               (ParetoFront study ["HOTA"; "MOTA"; "IDF1"]) :: evs)) /\
    (1 < 10 -> evs = importance_events "ocsort" study) /\
    (10 <= 1 -> evs = []) /\
    ((exists path i name, In (EvWriteHtml path (ParamImportances study i name)) evs)
     <-> 1 < 10).
Proof.
  intros study w.
  apply (save_plots_figures 0 study w (sample_opt "ocsort")).
  vm_compute. reflexivity.
Defined.

(** ** C5: the trial written back to the configuration *)

Lemma max_loop_first_max {A} (key : A -> result Q) (kf : A -> Q) l best :
  (forall x, In x l -> key x = Ok (kf x)) ->
  exists t pre post,
    max_loop key best (kf best) l = Ok t /\
    best :: l = (pre ++ t :: post)%list /\
    (forall x, In x pre -> (kf x < kf t)%Q) /\
    (forall x, In x post -> (kf x <= kf t)%Q).
Proof.
  revert best. induction l as [|x l IH]; intros best Hkey.
  - exists best, [], []. cbn. split; [reflexivity|]. split; [reflexivity|].
    split; intros ? [].
  - cbn [max_loop]. rewrite (Hkey x) by (left; reflexivity).
    unfold mbind, result_bind.
    assert (Hkey' : forall y, In y l -> key y = Ok (kf y))
      by (intros y Hy; apply Hkey; right; exact Hy).
    destruct (Qle_bool (kf x) (kf best)) eqn:Hle.
    + apply Qle_bool_iff in Hle.
      destruct (IH best Hkey') as (t & pre & post & Hrun & Hsplit & Hpre & Hpost).
      destruct pre as [|b pre].
      * cbn in Hsplit. injection Hsplit as <- <-.
        exists best, [], (x :: l).
        split; [exact Hrun|]. split; [reflexivity|]. split; [intros ? []|].
        intros y [<-|Hy]; [exact Hle|exact (Hpost y Hy)].
      * cbn in Hsplit. injection Hsplit as <- ->.
        exists t, (best :: x :: pre), post.
        split; [exact Hrun|]. split; [reflexivity|]. split; [|exact Hpost].
        intros y [<-|[<-|Hy]].
        -- apply Hpre. left. reflexivity.
        -- eapply Qle_lt_trans; [exact Hle|]. apply Hpre. left. reflexivity.
        -- apply Hpre. right. exact Hy.
    + assert (Hlt : (kf best < kf x)%Q).
      { apply Qnot_le_lt. intros Hc. apply Qle_bool_iff in Hc. congruence. }
      destruct (IH x Hkey') as (t & pre & post & Hrun & Hsplit & Hpre & Hpost).
      exists t, (best :: pre), post.
      split; [exact Hrun|]. split; [cbn; congruence|]. split; [|exact Hpost].
      intros y [<-|Hy]; [|exact (Hpre y Hy)].
      destruct pre as [|b pre].
      * cbn in Hsplit. injection Hsplit as <- _. exact Hlt.
      * cbn in Hsplit. injection Hsplit as <- _.
        eapply Qlt_trans; [exact Hlt|]. apply Hpre. left. reflexivity.
Qed.

Lemma py_max_first_max {A} (key : A -> result Q) (kf : A -> Q) l :
  l <> [] ->
  (forall x, In x l -> key x = Ok (kf x)) ->
  exists t pre post,
    py_max key l = Ok t /\
    l = (pre ++ t :: post)%list /\
    (forall x, In x pre -> (kf x < kf t)%Q) /\
    (forall x, In x post -> (kf x <= kf t)%Q).
Proof.
  intros Hne Hkey. destruct l as [|best l]; [congruence|].
  cbn [py_max]. rewrite (Hkey best) by (left; reflexivity).
  unfold mbind, result_bind. apply max_loop_first_max.
  intros x Hx. apply Hkey. right. exact Hx.
Qed.

Lemma objective_value_first t :
  values t <> [] -> objective_value 0 t = Ok (first_value t).
Proof.
  unfold objective_value, first_value. destruct (values t); [congruence|reflexivity].
Qed.

Section BestTrial.

Variable best_trials : Study -> list FrozenTrial.

(** C5: when the front is not empty, the trial written to the
    configuration file is the first trial of the front whose HOTA, the
    first of its values, is the greatest: no trial of the front has a
    greater one and every trial before it has a smaller one.  The file
    starts with two comment lines, the trial's number and its values, and
    then holds the trial's parameters under the tracker's name. *)
Theorem write_best_HOTA_params_to_config_first_max opt study w o :
  heap w !! opt = Some o ->
  best_trials study <> [] ->
  (forall t, In t (best_trials study) -> values t <> []) ->
  exists t pre post,
    best_trials study = (pre ++ t :: post)%list /\
    (forall u, In u pre -> (first_value u < first_value t)%Q) /\
    (forall u, In u post -> (first_value u <= first_value t)%Q) /\
    write_best_HOTA_params_to_config best_trials opt study w
    = (Ok tt,
       with_log w (best_config_events (tracking_config o) (tracking_method o) t)) /\
    (forall fs,
       replay (log w ++ best_config_events (tracking_config o) (tracking_method o) t) fs
         !! tracking_config o
       = Some [Text [Lit "# Trial number:      "; FmtInt (number t); Lit nl];
               Text [Lit "# HOTA, MOTA, IDF1:  "; FmtValues (values t); Lit nl];
               Yaml {[ tracking_method o := params t ]}]).
Proof.
  intros H Hne Hvals.
  destruct (py_max_first_max (objective_value 0) first_value (best_trials study) Hne)
    as (t & pre & post & Hmax & Hsplit & Hpre & Hpost).
  { intros t Ht. apply objective_value_first, Hvals, Ht. }
  exists t, pre, post.
  split; [exact Hsplit|]. split; [exact Hpre|]. split; [exact Hpost|]. split.
  - unfold write_best_HOTA_params_to_config. rewrite Hmax, bind_lift_ok.
    rewrite (bind_getattr _ _ _ _ _ H), (bind_getattr _ _ _ _ _ H).
    rewrite !bind_emit, emit_run, !with_log_app. reflexivity.
  - intros fs. unfold replay. rewrite foldl_app.
    cbn [foldl best_config_events apply_event].
    rewrite !lookup_alter_eq, lookup_insert_eq. reflexivity.
Qed.

End BestTrial.

Lemma write_best_HOTA_params_to_config_first_max_witness :
  let best_trials := fun _ : Study => sample_front in
  let study := create_study [Maximize; Maximize; Maximize] in
  let w := sample_world "ocsort" true in
  let o := sample_opt "ocsort" in
  exists t pre post,
    sample_front = (pre ++ t :: post)%list /\
    (forall u, In u pre -> (first_value u < first_value t)%Q) /\
    (forall u, In u post -> (first_value u <= first_value t)%Q) /\
    write_best_HOTA_params_to_config best_trials 0 study w
    = (Ok tt,
       with_log w (best_config_events (tracking_config o) (tracking_method o) t)) /\
    (forall fs,
       replay (log w ++ best_config_events (tracking_config o) (tracking_method o) t) fs
         !! tracking_config o
       = Some [Text [Lit "# Trial number:      "; FmtInt (number t); Lit nl];
               Text [Lit "# HOTA, MOTA, IDF1:  "; FmtValues (values t); Lit nl];
               Yaml {[ tracking_method o := params t ]}]).
Proof.
  intros best_trials study w o.
  apply (write_best_HOTA_params_to_config_first_max best_trials 0 study w o).
  - vm_compute. reflexivity.
  - discriminate.
  - intros t [<-|[<-|[<-|[]]]]; discriminate.
Defined.

(** ** C6: the script body and the checkpoint *)

Lemma appends_bind {A B} (c : M A) (f : A -> M B) :
  appends c -> (forall a, appends (f a)) -> appends (c ≫= f).
Proof.
  intros Hc Hf w. destruct (Hc w) as ([a|e] & evs & Hrun).
  - destruct (Hf a (with_log w evs)) as (r & evs' & Hrun').
    exists r, (evs ++ evs')%list. unfold mbind, M_bind. rewrite Hrun, Hrun'.
    rewrite with_log_app. reflexivity.
  - exists (Raise e), evs. unfold mbind, M_bind. rewrite Hrun. reflexivity.
Qed.

Lemma appends_emit e : appends (emit e).
Proof. intros w. exists (Ok tt), [e]. reflexivity. Qed.

Lemma appends_mret {A} (a : A) : appends (mret a).
Proof. intros w. exists (Ok a), []. rewrite with_log_nil. reflexivity. Qed.

Lemma appends_lift {A} (r : result A) : appends (lift r).
Proof. intros w. exists r, []. rewrite with_log_nil. reflexivity. Qed.

Lemma appends_getattr {A} ref (attr : Opt -> A) : appends (getattr ref attr).
Proof.
  intros w. unfold getattr. destruct (heap w !! ref).
  - eexists _, []. rewrite with_log_nil. reflexivity.
  - eexists _, []. rewrite with_log_nil. reflexivity.
Qed.

Lemma appends_load_global name : appends (load_global name).
Proof.
  intros w. unfold load_global. destruct (globals w !! name).
  - eexists _, []. rewrite with_log_nil. reflexivity.
  - eexists _, []. rewrite with_log_nil. reflexivity.
Qed.

Ltac appends_steps :=
  repeat first
    [ apply appends_emit | apply appends_mret | apply appends_lift
    | apply appends_getattr | apply appends_load_global
    | apply appends_bind; [|intros ?] ].


Lemma bind_opt_attr {A B} (attr : Opt -> A) (f : A -> M B) w ref o :
  globals w !! "opt" = Some ref -> heap w !! ref = Some o ->
  (opt_attr attr ≫= f) w = f (attr o) w.
Proof.
  intros Hg Hh. unfold opt_attr. rewrite bind_assoc_M.
  rewrite (bind_load_global _ _ _ _ Hg). apply bind_getattr. exact Hh.
Qed.

Section Script.

Variable best_trials : Study -> list FrozenTrial.
Variable run : nat -> nat -> World -> string.
Variable optimize : Study -> (Trial -> M (Q * Q * Q)) -> Z -> M Study.
Variable joblib_load : string -> M Study.
Variable ROOT : string.
Variable path_div : string -> string -> string.

Lemma appends_print_best study :
  appends (print_best_trial_metric_results best_trials study).
Proof. unfold print_best_trial_metric_results, print_trial. appends_steps. Qed.

Lemma appends_write_best opt study :
  appends (write_best_HOTA_params_to_config best_trials opt study).
Proof. unfold write_best_HOTA_params_to_config. appends_steps. Qed.


End Script.


(** ** The declared ranges *)

(** With a sampler that keeps to the rules, what the ocsort branch writes
    lies in the declared ranges, the integers on their steps. *)
Lemma get_new_config_ocsort_in_range self trial w o :
  sampler_in_range trial ->
  heap w !! self = Some o ->
  tracking_method o = "ocsort" ->
  exists w1 cfg det_thresh max_age min_hits delta_t,
    get_new_config self trial w = (Ok tt, w1) /\
    (forall fs, replay (log w1) fs !! tracking_config o
                = Some [Yaml {[ "ocsort" := cfg ]}]) /\
    cfg !! "det_thresh" = Some (VFloat det_thresh) /\
    (0.35 <= det_thresh)%Q /\ (det_thresh <= 0.55)%Q /\
    cfg !! "max_age" = Some (VInt max_age) /\
    10 <= max_age <= 60 /\ (max_age - 10) mod 10 = 0 /\
    cfg !! "min_hits" = Some (VInt min_hits) /\ 1 <= min_hits <= 5 /\
    cfg !! "delta_t" = Some (VInt delta_t) /\ 1 <= delta_t <= 5.
Proof.
  intros [Hf Hi _] H Hm.
  destruct (get_new_config_ocsort self trial w o H Hm)
    as (cfg & Hcfg & Hdet & Hage & Hhits & _ & Hdelta & _).
  destruct (Hf "det_thresh" 0.35%Q 0.55%Q) as [Hlo Hhi]; [discriminate|].
  destruct (Hi "max_age" 10 60 10) as [Hr1 Hs1]; [lia|lia|].
  destruct (Hi "min_hits" 1 5 1) as [Hr2 _]; [lia|lia|].
  destruct (Hi "delta_t" 1 5 1) as [Hr3 _]; [lia|lia|].
  eexists _, cfg, _, _, _, _. split; [exact Hcfg|]. split.
  { intros fs. unfold replay. cbn [log with_log with_heap]. rewrite foldl_app.
    cbn [foldl config_events apply_event].
    rewrite lookup_alter_eq, lookup_insert_eq. reflexivity. }
  repeat (split; [eassumption|]). exact Hr3.
Qed.

(** The 'track_thresh' of the bytetrack branch is whatever [conf_thres]
    holds, inside the range declared for "track_thres" or not. *)
Lemma get_new_config_bytetrack_out_of_range :
  let o := mkOpt "bytetrack" "bytetrack.yaml" 0.9 None [] 10 false in
  let w := mkWorld {[ 0%nat := o ]} ∅ [] in
  exists w1 cfg,
    get_new_config 0 sample_trial w = (Ok tt, w1) /\
    replay (log w1) ∅ !! "bytetrack.yaml" = Some [Yaml {[ "bytetrack" := cfg ]}] /\
    cfg !! "track_thresh" = Some (VFloat 0.9) /\
    ~ (0.9 <= 0.55)%Q.
Proof.
  intros o w.
  destruct (get_new_config_bytetrack 0 sample_trial w o)
    as (cfg & Hcfg & Ht & _); [reflexivity|reflexivity|].
  eexists _, cfg. split; [exact Hcfg|]. split; [|split; [exact Ht|]].
  - cbn. rewrite lookup_alter_eq, lookup_insert_eq. reflexivity.
  - intros Hle. apply Hle. reflexivity.
Qed.

(** * Further properties of the report parser *)

(** ** Pieces without a number *)

Lemma many_no_digit c (k : string -> option string) :
  (forall s, has_digit s = false -> k s = None) ->
  forall s, has_digit s = false -> many c k s = None.
Proof.
  intros Hk s. induction s as [|a s IH]; intros H.
  - cbn. apply Hk. reflexivity.
  - cbn [many]. pose proof H as H'. cbn [has_digit] in H'.
    apply orb_false_iff in H' as [_ Hs].
    destruct (c a); [rewrite (IH Hs)|]; apply Hk; exact H.
Qed.

Lemma match_here_no_digit s :
  has_digit s = false -> match_here number_pattern s = None.
Proof.
  intros H. unfold match_here, number_pattern. cbn [fold_right].
  unfold atom_match at 1. cbn [qnt cls].
  assert (Hplus : forall t, has_digit t = false ->
            atom_match (Atom is_digit QPlus) (fun _ => Some EmptyString) t = None).
  { intros [|x t] Ht; [reflexivity|]. unfold atom_match. cbn [qnt cls].
    cbn [has_digit] in Ht. apply orb_false_iff in Ht as [-> _]. reflexivity. }
  assert (Hdots : forall t, has_digit t = false ->
            atom_match (Atom is_dot QStar)
              (atom_match (Atom is_digit QPlus) (fun _ => Some EmptyString)) t = None).
  { intros t Ht. unfold atom_match at 1. cbn [qnt cls].
    apply many_no_digit; assumption. }
  assert (Hdigits : forall t, has_digit t = false ->
            atom_match (Atom is_digit QStar)
              (atom_match (Atom is_dot QStar)
                 (atom_match (Atom is_digit QPlus) (fun _ => Some EmptyString))) t
            = None).
  { intros t Ht. unfold atom_match at 1. cbn [qnt cls].
    apply many_no_digit; assumption. }
  destruct s as [|x s]; [apply Hdigits; reflexivity|].
  pose proof H as H'. cbn [has_digit] in H'. apply orb_false_iff in H' as [_ Hs].
  destruct (is_sign x); [rewrite (Hdigits s Hs)|]; apply Hdigits; exact H.
Qed.

Lemma many_total c s : exists m, many c (fun _ => Some EmptyString) s = Some m.
Proof.
  induction s as [|a s [m IH]]; [eexists; reflexivity|].
  cbn [many]. destruct (c a); [rewrite IH|]; eexists; reflexivity.
Qed.

Lemma digit_not_sign c : is_digit c = true -> is_sign c = false.
Proof.
  destruct c as [[] [] [] [] [] [] [] []]; vm_compute; congruence.
Qed.

Lemma digit_not_dot c : is_digit c = true -> is_dot c = false.
Proof.
  destruct c as [[] [] [] [] [] [] [] []]; vm_compute; congruence.
Qed.

Lemma match_here_digit_head c s :
  is_digit c = true -> exists m, match_here number_pattern (String c s) = Some m.
Proof.
  intros Hd. unfold match_here, number_pattern. cbn [fold_right].
  unfold atom_match at 1. cbn [qnt cls]. rewrite (digit_not_sign c Hd).
  unfold atom_match at 1. cbn [qnt cls]. cbn [many]. rewrite Hd.
  match goal with
  | |- exists m, match ?inner with _ => _ end = Some m => destruct inner as [m|]
  end; [eexists; reflexivity|].
  unfold atom_match at 1. cbn [qnt cls]. cbn [many]. rewrite (digit_not_dot c Hd).
  unfold atom_match. cbn [qnt cls]. rewrite Hd.
  destruct (many_total is_digit s) as [m ->]. eexists. reflexivity.
Qed.

Lemma findall_no_digit s skip :
  has_digit s = false -> findall_from number_pattern s skip = [].
Proof.
  revert skip. induction s as [|c s IH]; intros skip H.
  - cbn. destruct skip; reflexivity.
  - cbn [findall_from]. pose proof H as H'. cbn [has_digit] in H'.
    apply orb_false_iff in H' as [_ Hs].
    destruct skip; [|apply IH; exact Hs].
    rewrite (match_here_no_digit _ H). apply IH. exact Hs.
Qed.

Lemma findall_with_digit s :
  has_digit s = true -> findall_from number_pattern s 0 <> [].
Proof.
  induction s as [|c s IH]; intros H; [discriminate|].
  cbn [findall_from].
  destruct (match_here number_pattern (String c s)) as [m|] eqn:Hm; [discriminate|].
  cbn [has_digit] in H. destruct (is_digit c) eqn:Hd.
  - destruct (match_here_digit_head c s Hd) as [m Hm']. congruence.
  - apply IH. exact H.
Qed.

Lemma unsigned_float_raises neg s e :
  unsigned_float neg s = Raise e -> e = ValueError.
Proof.
  unfold unsigned_float. destruct (digits s 0 0) as [[ip ni] rest].
  destruct rest as [|c rest].
  - destruct (0 <? ni)%nat; congruence.
  - destruct (is_dot c); [|congruence].
    destruct (digits rest ip 0) as [[m nf] rest'].
    destruct rest'; [|congruence]. destruct (0 <? ni + nf)%nat; congruence.
Qed.

Lemma py_float_raises s e : py_float s = Raise e -> e = ValueError.
Proof.
  unfold py_float. destruct s as [|c s]; [congruence|].
  destruct (Ascii.eqb c "-"); [apply unsigned_float_raises|].
  destruct (Ascii.eqb c "+"); apply unsigned_float_raises.
Qed.

(** X1: a piece of the report whose characters have code points below 256
    raises [IndexError] exactly when it holds none of the digits 0 to 9; a
    piece with such a digit either gives a number or raises
    [ValueError]. *)
Theorem first_number_IndexError_iff f :
  first_number f = Raise IndexError <-> has_digit f = false.
Proof.
  unfold first_number, findall. split.
  - intros H. destruct (has_digit f) eqn:Hd; [|reflexivity].
    pose proof (findall_with_digit f Hd) as Hne.
    destruct (findall_from number_pattern f 0) as [|m ms]; [congruence|].
    apply py_float_raises in H. discriminate.
  - intros Hd. rewrite (findall_no_digit f 0 Hd). reflexivity.
Qed.

(** ** How many markers a report needs *)

Lemma py_slice_inner_length {A} (l : list A) :
  length (py_slice l 2 (-1)) = (length l - 3)%nat.
Proof.
  unfold py_slice, slice_index. cbn [Z.ltb Z.compare].
  rewrite length_take, length_drop. lia.
Qed.

Lemma scores_of_ok vals scores :
  scores_of vals = Ok scores -> (3 <= length vals)%nat.
Proof.
  destruct vals as [|h [|m [|i rest]]]; cbn; try discriminate. lia.
Qed.

(** X2: a report that is split into at most three pieces, that is with at
    most two occurrences of the marker, raises [KeyError] for HOTA: nothing
    is extracted from it. *)
Theorem parse_results_few_markers report :
  (length (split "COMBINED" report) <= 3)%nat ->
  parse_results report = Raise (KeyError "HOTA").
Proof.
  intros Hlen.
  assert (Hex : extract_values report = Ok []).
  { unfold extract_values. rewrite py_slice_short by exact Hlen. reflexivity. }
  rewrite (parse_results_scores _ _ Hex). reflexivity.
Qed.

Lemma parse_results_few_markers_witness :
  parse_results "COMBINED 55.2 COMBINED 61.0" = Raise (KeyError "HOTA").
Proof.
  apply (parse_results_few_markers "COMBINED 55.2 COMBINED 61.0").
  vm_compute. lia.
Defined.

(** X3: scores are returned only for a report split into at least six
    pieces, that is with at least five occurrences of the marker: the one
    of the settings line, three score rows and a last one. *)
Theorem parse_results_ok_needs_markers report scores :
  parse_results report = Ok scores ->
  (6 <= length (split "COMBINED" report))%nat.
Proof.
  intros Hok. destruct (extract_values report) as [vals|e] eqn:Hex.
  - rewrite (parse_results_scores _ _ Hex) in Hok.
    apply scores_of_ok in Hok.
    unfold extract_values in Hex. apply comprehension_length in Hex.
    rewrite py_slice_inner_length in Hex. lia.
  - rewrite (parse_results_raise _ _ Hex) in Hok. discriminate.
Qed.

Lemma parse_results_ok_needs_markers_witness :
  (6 <= length (split "COMBINED" harness_report))%nat.
Proof.
  apply (parse_results_ok_needs_markers harness_report sample_scores).
  vm_compute. reflexivity.
Defined.

(** ** Pieces behind the third score *)

Lemma comprehension_stops {A B} (f : A -> result B) good bad more ys e :
  comprehension f good = Ok ys ->
  f bad = Raise e ->
  comprehension f (good ++ bad :: more) = Raise e.
Proof.
  revert ys. induction good as [|x good IH]; intros ys Hgood Hbad.
  - cbn. rewrite Hbad. reflexivity.
  - cbn in Hgood |- *. destruct (f x) as [y|e']; cbn in Hgood |- *; [|discriminate].
    destruct (comprehension f good) as [ys'|e']; cbn in Hgood; [|discriminate].
    rewrite (IH ys' eq_refl Hbad). reflexivity.
Qed.

(** X4: every piece between the second and the last marker is read, also
    those behind the third score: the first of them that gives no number
    makes the whole call raise, however many scores came before. *)
Theorem parse_results_late_piece_raises report p0 p1 good bad more plast vals e :
  split "COMBINED" report = p0 :: p1 :: (good ++ bad :: more) ++ [plast] ->
  comprehension first_number good = Ok vals ->
  first_number bad = Raise e ->
  parse_results report = Raise e.
Proof.
  intros Hsplit Hgood Hbad.
  apply parse_results_raise. unfold extract_values.
  rewrite Hsplit, py_slice_inner.
  exact (comprehension_stops _ _ _ _ _ _ Hgood Hbad).
Qed.

Lemma parse_results_late_piece_raises_witness :
  parse_results "aCOMBINEDbCOMBINED 1 COMBINED 2 COMBINED 3 COMBINED none COMBINEDz"
  = Raise IndexError.
Proof.
  apply (parse_results_late_piece_raises _ "a" "b" [" 1 "; " 2 "; " 3 "] " none " [] "z"
           [decimal false 1 0; decimal false 2 0; decimal false 3 0]).
  - vm_compute. reflexivity.
  - vm_compute. reflexivity.
  - vm_compute. reflexivity.
Defined.

(** ** Reading a score *)

Lemma match_here_non_numeric c s :
  is_numeric_char c = false -> match_here number_pattern (String c s) = None.
Proof.
  unfold is_numeric_char. intros H.
  apply orb_false_iff in H as [H Hdot]. apply orb_false_iff in H as [Hsign Hdigit].
  unfold match_here, number_pattern. cbn [fold_right].
  unfold atom_match at 1. cbn [qnt cls]. rewrite Hsign.
  unfold atom_match at 1. cbn [qnt cls many]. rewrite Hdigit.
  unfold atom_match at 1. cbn [qnt cls many]. rewrite Hdot.
  unfold atom_match. cbn [qnt cls]. rewrite Hdigit. reflexivity.
Qed.

Lemma first_number_skips pad s :
  numeric_free pad = true -> first_number (pad ++ s) = first_number s.
Proof.
  induction pad as [|c pad IH]; intros H; [reflexivity|].
  cbn [numeric_free] in H. apply andb_true_iff in H as [Hc Hpad].
  apply negb_true_iff in Hc. rewrite <- (IH Hpad).
  unfold first_number, findall.
  change (String c pad ++ s) with (String c (pad ++ s)). cbn [findall_from].
  rewrite (match_here_non_numeric _ _ Hc). reflexivity.
Qed.

Lemma append_cons c s t : String c s ++ t = String c (s ++ t).
Proof. reflexivity. Qed.

Lemma append_empty_l t : "" ++ t = t.
Proof. reflexivity. Qed.

Lemma append_empty_r s : s ++ "" = s.
Proof.
  induction s as [|c s IH]; [reflexivity|].
  rewrite append_cons, IH. reflexivity.
Qed.

Lemma many_no_more c (k : string -> option string) s :
  match s with EmptyString => true | String a _ => negb (c a) end = true ->
  many c k s = k s.
Proof.
  destruct s as [|a s]; [reflexivity|]. cbn [many].
  intros H. apply negb_true_iff in H. rewrite H. reflexivity.
Qed.

Lemma many_digits_run (k : string -> option string) run s m :
  all_digits run = true -> no_digit_ahead s = true -> k s = Some m ->
  many is_digit k (run ++ s) = Some (run ++ m).
Proof.
  intros Hrun Hs Hk. induction run as [|a run IH].
  - rewrite append_empty_l, many_no_more by exact Hs. exact Hk.
  - cbn [all_digits] in Hrun. apply andb_true_iff in Hrun as [Ha Hrun].
    rewrite !append_cons. cbn [many]. rewrite Ha, (IH Hrun). reflexivity.
Qed.

Lemma digits_run run s acc n :
  all_digits run = true -> no_digit_ahead s = true ->
  digits (run ++ s) acc n = (digits_value run acc, (n + String.length run)%nat, s).
Proof.
  intros Hrun Hs. revert acc n. induction run as [|a run IH]; intros acc n.
  - rewrite append_empty_l. cbn [digits_value String.length]. rewrite Nat.add_0_r.
    destruct s as [|c s]; [reflexivity|]. cbn [digits].
    cbn [no_digit_ahead] in Hs. apply negb_true_iff in Hs. rewrite Hs. reflexivity.
  - cbn [all_digits] in Hrun. apply andb_true_iff in Hrun as [Ha Hrun].
    rewrite append_cons. cbn [digits digits_value String.length]. rewrite Ha, (IH Hrun).
    f_equal. f_equal. lia.
Qed.

Lemma match_here_decimal ip fp rest :
  all_digits ip = true -> ip <> "" ->
  all_digits fp = true -> fp <> "" ->
  no_digit_ahead rest = true ->
  match_here number_pattern (ip ++ "." ++ fp ++ rest) = Some (ip ++ "." ++ fp).
Proof.
  intros Hip Hip0 Hfp Hfp0 Hrest.
  destruct ip as [|x ip]; [congruence|]. destruct fp as [|y fp]; [congruence|].
  pose proof Hip as Hx. cbn [all_digits] in Hx. apply andb_true_iff in Hx as [Hx _].
  pose proof Hfp as Hy. cbn [all_digits] in Hy. apply andb_true_iff in Hy as [Hy Hfp'].
  unfold match_here, number_pattern. cbn [fold_right].
  rewrite (append_cons x ip).
  unfold atom_match at 1. cbn [qnt cls]. rewrite (digit_not_sign x Hx).
  unfold atom_match at 1. cbn [qnt cls].
  rewrite <- (append_cons x ip).
  rewrite (many_digits_run _ (String x ip) ("." ++ String y fp ++ rest)
             ("." ++ String y fp)); [reflexivity|exact Hip|reflexivity|].
  rewrite (append_cons "." ""), append_empty_l, (append_cons y fp).
  unfold atom_match at 1. cbn [qnt cls many].
  change (is_dot ".") with true. cbv iota.
  rewrite (digit_not_dot y Hy).
  unfold atom_match. cbn [qnt cls]. rewrite Hy.
  rewrite (many_digits_run _ fp rest "" Hfp' Hrest eq_refl).
  cbn. rewrite append_empty_r. reflexivity.
Qed.

Lemma py_float_decimal ip fp :
  all_digits ip = true -> ip <> "" ->
  all_digits fp = true ->
  py_float (ip ++ "." ++ fp)
  = Ok (decimal false (digits_value fp (digits_value ip 0)) (String.length fp)).
Proof.
  intros Hip Hip0 Hfp.
  destruct ip as [|x ip]; [congruence|].
  pose proof Hip as Hx. cbn [all_digits] in Hx. apply andb_true_iff in Hx as [Hx _].
  pose proof (digit_not_sign x Hx) as Hsign. unfold is_sign in Hsign.
  apply orb_false_iff in Hsign as [Hminus Hplus].
  unfold py_float. rewrite append_cons, Hminus, Hplus. rewrite <- append_cons.
  unfold unsigned_float.
  rewrite (digits_run (String x ip) ("." ++ fp) 0 0 Hip eq_refl).
  rewrite (append_cons "." ""), append_empty_l.
  change (is_dot ".") with true. cbv iota.
  rewrite <- (append_empty_r fp) at 1.
  rewrite (digits_run fp "" _ 0 Hfp eq_refl).
  cbn [String.length Nat.add Nat.ltb Nat.leb]. reflexivity.
Qed.

(** X5: text that holds no sign, digit or dot before the first number does
    not change what is read from a piece. *)
Theorem first_number_skips_padding pad s :
  numeric_free pad = true -> first_number (pad ++ s) = first_number s.
Proof. exact (first_number_skips pad s). Qed.

Lemma first_number_skips_padding_witness :
  first_number ("   HOTA: " ++ "55.2 50.1") = first_number "55.2 50.1".
Proof.
  apply (first_number_skips_padding "   HOTA: " "55.2 50.1").
  vm_compute. reflexivity.
Defined.

(** X6: from a piece whose first sign, digit or dot starts an unsigned
    decimal, digits, one point, digits, and that does not go on with a
    digit, exactly this decimal is read. *)
Theorem first_number_reads_decimal pad ip fp rest :
  numeric_free pad = true ->
  all_digits ip = true -> ip <> "" ->
  all_digits fp = true -> fp <> "" ->
  no_digit_ahead rest = true ->
  first_number (pad ++ ip ++ "." ++ fp ++ rest)
  = Ok (decimal false (digits_value fp (digits_value ip 0)) (String.length fp)).
Proof.
  intros Hpad Hip Hip0 Hfp Hfp0 Hrest.
  rewrite (first_number_skips _ _ Hpad).
  rewrite <- (py_float_decimal ip fp Hip Hip0 Hfp).
  unfold first_number, findall.
  pose proof (match_here_decimal ip fp rest Hip Hip0 Hfp Hfp0 Hrest) as Hm.
  destruct ip as [|x ip]; [congruence|].
  rewrite append_cons in Hm |- *. cbn [findall_from]. rewrite Hm. reflexivity.
Qed.

Lemma first_number_reads_decimal_witness :
  first_number ("              " ++ "55" ++ "." ++ "2" ++ "      50.1")
  = Ok (decimal false 552 1).
Proof.
  apply (first_number_reads_decimal "              " "55" "2" "      50.1");
    solve [reflexivity | discriminate].
Defined.

(** * Further properties of [get_new_config] and [__call__] *)

Lemma replay_app evs evs' fs : replay (evs ++ evs') fs = replay evs' (replay evs fs).
Proof. unfold replay. apply foldl_app. Qed.

Lemma replay_config_events evs f d fs :
  replay (evs ++ config_events f d) fs !! f = Some [Yaml d].
Proof.
  rewrite replay_app. unfold replay. cbn [foldl config_events apply_event].
  rewrite lookup_alter_eq, lookup_insert_eq. reflexivity.
Qed.

Lemma replay_config_events_other evs f d fs p :
  p <> f -> replay (evs ++ config_events f d) fs !! p = replay evs fs !! p.
Proof.
  intros Hp. rewrite replay_app. unfold replay at 1.
  cbn [foldl config_events apply_event].
  rewrite lookup_alter_ne, lookup_insert_ne by congruence. reflexivity.
Qed.

Lemma get_new_config_shape self trial w o :
  heap w !! self = Some o ->
  exists o' d,
    get_new_config self trial w
    = (Ok tt, with_log (with_heap w (<[self := o']> (heap w)))
                       (config_events (tracking_config o) d)) /\
    (tracking_method o' = tracking_method o /\
     tracking_config o' = tracking_config o /\
     device o' = device o /\
     n_trials o' = n_trials o /\
     resume o' = resume o) /\
    (if known_tracker (tracking_method o)
     then exists cfg, d = {[ tracking_method o := cfg ]}
     else d = ∅ /\ o' = o).
Proof.
  intros H. unfold known_tracker.
  destruct (String.eqb_spec (tracking_method o) "strongsort") as [Hm|H1].
  { destruct (get_new_config_strongsort self trial w o H Hm) as (cfg & Hcfg & _).
    eexists _, _. split; [exact Hcfg|]. split; [cbn; auto 6|].
    cbn [orb]. exists cfg. rewrite Hm. reflexivity. }
  destruct (String.eqb_spec (tracking_method o) "bytetrack") as [Hm|H2].
  { destruct (get_new_config_bytetrack self trial w o H Hm) as (cfg & Hcfg & _).
    eexists _, _. split; [exact Hcfg|]. split; [cbn; auto 6|].
    cbn [orb]. exists cfg. rewrite Hm. reflexivity. }
  destruct (String.eqb_spec (tracking_method o) "ocsort") as [Hm|H3].
  { destruct (get_new_config_ocsort self trial w o H Hm) as (cfg & Hcfg & _).
    eexists _, _. split; [exact Hcfg|]. split; [cbn; auto 6|].
    cbn [orb]. exists cfg. rewrite Hm. reflexivity. }
  exists o, ∅. split; [|split; [auto 6|cbn; auto]].
  rewrite (get_new_config_unknown self trial w o H H1 H2 H3).
  unfold with_heap. rewrite insert_id by exact H. destruct w; reflexivity.
Qed.

(** X7: when [get_new_config] returns, that is when the configuration file
    could be opened, it has replaced the file: whatever the file store held
    and whatever was written before, the file then holds one document and
    nothing else, every other file is as it was, and the document has no
    key but the tracker type, which it has exactly for strongsort,
    bytetrack and ocsort. *)
Theorem get_new_config_overwrites self trial w o w1 :
  heap w !! self = Some o ->
  get_new_config self trial w = (Ok tt, w1) ->
  exists d,
    (forall fs, replay (log w1) fs !! tracking_config o = Some [Yaml d]) /\
    (forall fs p, p <> tracking_config o ->
       replay (log w1) fs !! p = replay (log w) fs !! p) /\
    (forall k, k <> tracking_method o -> d !! k = None) /\
    (is_Some (d !! tracking_method o) <-> known_tracker (tracking_method o) = true).
Proof.
  intros H Hret.
  destruct (get_new_config_shape self trial w o H) as (o' & d & Hcfg & _ & Hd).
  rewrite Hcfg in Hret. injection Hret as <-.
  exists d. cbn [log with_log with_heap].
  split; [intros fs; apply replay_config_events|].
  split; [intros fs p Hp; apply replay_config_events_other; exact Hp|].
  destruct (known_tracker (tracking_method o)).
  - destruct Hd as [cfg ->]. split.
    + intros k Hk. apply lookup_singleton_ne. congruence.
    + rewrite lookup_singleton_eq. split; eauto.
  - destruct Hd as [-> _]. split.
    + intros k _. apply lookup_empty.
    + rewrite lookup_empty. split; [intros [? [=]]|discriminate].
Qed.

Lemma get_new_config_overwrites_witness :
  let w := with_log (sample_world "ocsort" true)
             [EvOpen (tracking_config (sample_opt "ocsort"));
              EvWrite (tracking_config (sample_opt "ocsort")) [Lit "# old"]] in
  let w1 := (get_new_config 0 sample_trial w).2 in
  exists d,
    (forall fs, replay (log w1) fs !! tracking_config (sample_opt "ocsort")
                = Some [Yaml d]) /\
    (forall fs p, p <> tracking_config (sample_opt "ocsort") ->
       replay (log w1) fs !! p = replay (log w) fs !! p) /\
    (forall k, k <> "ocsort" -> d !! k = None) /\
    (is_Some (d !! "ocsort") <-> known_tracker "ocsort" = true).
Proof.
  intros w w1.
  apply (get_new_config_overwrites 0 sample_trial w (sample_opt "ocsort") w1).
  - vm_compute. reflexivity.
  - vm_compute. reflexivity.
Defined.

(** X8: [get_new_config] touches nothing but the namespace of the instance
    and the configuration file: the module globals and every other
    namespace are as before, and of the instance's namespace the tracker
    type, the configuration path, the device list, the number of trials
    and the resume flag are unchanged. *)
Theorem get_new_config_frame self trial w o :
  heap w !! self = Some o ->
  exists w1 o',
    get_new_config self trial w = (Ok tt, w1) /\
    globals w1 = globals w /\
    heap w1 !! self = Some o' /\
    (forall ref, ref <> self -> heap w1 !! ref = heap w !! ref) /\
    tracking_method o' = tracking_method o /\
    tracking_config o' = tracking_config o /\
    device o' = device o /\
    n_trials o' = n_trials o /\
    resume o' = resume o.
Proof.
  intros H.
  destruct (get_new_config_shape self trial w o H) as (o' & d & Hcfg & Hsame & _).
  eexists _, o'. split; [exact Hcfg|]. cbn [globals heap with_log with_heap].
  split; [reflexivity|]. split; [apply lookup_insert_eq|].
  split; [intros ref Hne; apply lookup_insert_ne; congruence|exact Hsame].
Qed.

Lemma get_new_config_frame_witness :
  let w := sample_world "strongsort" true in
  let o := sample_opt "strongsort" in
  exists w1 o',
    get_new_config 0 sample_trial w = (Ok tt, w1) /\
    globals w1 = globals w /\
    heap w1 !! 0%nat = Some o' /\
    (forall ref, ref <> 0%nat -> heap w1 !! ref = heap w !! ref) /\
    tracking_method o' = tracking_method o /\
    tracking_config o' = tracking_config o /\
    device o' = device o /\
    n_trials o' = n_trials o /\
    resume o' = resume o.
Proof.
  intros w o. apply (get_new_config_frame 0 sample_trial w o).
  vm_compute. reflexivity.
Defined.

(** X9: over consecutive bytetrack trials the 'track_thresh' written to the
    configuration never varies: each trial writes the confidence threshold
    the namespace held before the first of them, whatever the sampler
    proposes for "track_thres". *)
Theorem get_new_config_bytetrack_constant self trial1 trial2 w o :
  heap w !! self = Some o ->
  tracking_method o = "bytetrack" ->
  exists w1 w2 cfg1 cfg2,
    get_new_config self trial1 w = (Ok tt, w1) /\
    get_new_config self trial2 w1 = (Ok tt, w2) /\
    (forall fs, replay (log w1) fs !! tracking_config o
                = Some [Yaml {[ "bytetrack" := cfg1 ]}]) /\
    (forall fs, replay (log w2) fs !! tracking_config o
                = Some [Yaml {[ "bytetrack" := cfg2 ]}]) /\
    cfg1 !! "track_thresh" = Some (VFloat (conf_thres o)) /\
    cfg2 !! "track_thresh" = Some (VFloat (conf_thres o)).
Proof.
  intros H Hm.
  destruct (get_new_config_bytetrack self trial1 w o H Hm) as (cfg1 & Hcfg1 & Ht1 & _).
  set (o1 := set_track_thres (suggest_float trial1 "track_thres" 0.35 0.55) o) in *.
  set (w1 := with_log (with_heap w (<[self := o1]> (heap w)))
                      (config_events (tracking_config o) {[ "bytetrack" := cfg1 ]})) in *.
  assert (H1 : heap w1 !! self = Some o1) by apply lookup_insert_eq.
  destruct (get_new_config_bytetrack self trial2 w1 o1 H1 Hm) as (cfg2 & Hcfg2 & Ht2 & _).
  eexists w1, _, cfg1, cfg2. split; [exact Hcfg1|]. split; [exact Hcfg2|].
  split; [intros fs; apply replay_config_events|].
  split; [|split; [exact Ht1|exact Ht2]].
  intros fs. cbn [log with_log with_heap]. apply (replay_config_events _ (tracking_config o)).
Qed.

Lemma get_new_config_bytetrack_constant_witness :
  let w := sample_world "bytetrack" true in
  let o := sample_opt "bytetrack" in
  let other := mkTrial (fun _ lo _ => lo) (fun _ lo _ _ => lo)
                       (fun _ choices => hd (VInt 0) choices) in
  exists w1 w2 cfg1 cfg2,
    get_new_config 0 sample_trial w = (Ok tt, w1) /\
    get_new_config 0 other w1 = (Ok tt, w2) /\
    (forall fs, replay (log w1) fs !! tracking_config o
                = Some [Yaml {[ "bytetrack" := cfg1 ]}]) /\
    (forall fs, replay (log w2) fs !! tracking_config o
                = Some [Yaml {[ "bytetrack" := cfg2 ]}]) /\
    cfg1 !! "track_thresh" = Some (VFloat 0.45) /\
    cfg2 !! "track_thresh" = Some (VFloat 0.45).
Proof.
  intros w o other.
  apply (get_new_config_bytetrack_constant 0 sample_trial other w o).
  - vm_compute. reflexivity.
  - reflexivity.
Defined.

Section CallOnGlobal.

Variable run : nat -> nat -> World -> string.

(** X10: when the instance was built from the global [opt], as the script
    does, an ocsort trial hands the evaluation a namespace whose
    [conf_thres] is the sample for "det_thresh", the very value written as
    'det_thresh' to the configuration file just before. *)
Theorem Objective_call_ocsort_threshold self trial w o :
  heap w !! self = Some o ->
  globals w !! "opt" = Some self ->
  tracking_method o = "ocsort" ->
  exists w1 cfg o',
    Objective_call run self trial w
    = (parse_results (run self self w1), with_log w1 [EvRun self self]) /\
    heap w1 !! self = Some o' /\
    conf_thres o' = suggest_float trial "det_thresh" 0.35 0.55 /\
    (forall fs, replay (log w1) fs !! tracking_config o
                = Some [Yaml {[ "ocsort" := cfg ]}]) /\
    cfg !! "det_thresh" = Some (VFloat (conf_thres o')).
Proof.
  intros H Hg Hm.
  destruct (get_new_config_ocsort self trial w o H Hm) as (cfg & Hcfg & Hdet & _).
  eexists _, cfg, _. split; [exact (Objective_call_with_global run _ _ _ _ _ Hcfg Hg)|].
  cbn [heap log with_log with_heap].
  split; [apply lookup_insert_eq|]. split; [reflexivity|].
  split; [intros fs; apply replay_config_events|exact Hdet].
Qed.

(** X11: in a strongsort trial of an instance built from the global [opt]
    the sample for "conf_thres" reaches the evaluation through the
    namespace only: the mapping written to the configuration file has
    neither a 'conf_thres' nor an 'iou_thresh'. *)
Theorem Objective_call_strongsort_threshold self trial w o :
  heap w !! self = Some o ->
  globals w !! "opt" = Some self ->
  tracking_method o = "strongsort" ->
  exists w1 cfg o',
    Objective_call run self trial w
    = (parse_results (run self self w1), with_log w1 [EvRun self self]) /\
    heap w1 !! self = Some o' /\
    conf_thres o' = suggest_float trial "conf_thres" 0.35 0.55 /\
    (forall fs, replay (log w1) fs !! tracking_config o
                = Some [Yaml {[ "strongsort" := cfg ]}]) /\
    cfg !! "conf_thres" = None /\
    cfg !! "iou_thresh" = None.
Proof.
  intros H Hg Hm.
  destruct (get_new_config_strongsort self trial w o H Hm) as (cfg & Hcfg & Hdom & _).
  eexists _, cfg, _. split; [exact (Objective_call_with_global run _ _ _ _ _ Hcfg Hg)|].
  cbn [heap log with_log with_heap].
  split; [apply lookup_insert_eq|]. split; [reflexivity|].
  split; [intros fs; apply replay_config_events|].
  split; apply not_elem_of_dom; rewrite Hdom; cbn [list_to_set foldr];
    rewrite !elem_of_union, !elem_of_singleton, elem_of_empty;
    intros Hin; repeat (destruct Hin as [Hin|Hin]; [discriminate|]); exact Hin.
Qed.

End CallOnGlobal.

Lemma Objective_call_ocsort_threshold_witness :
  let run := fun (_ _ : nat) (_ : World) => harness_report in
  let w := sample_world "ocsort" true in
  let o := sample_opt "ocsort" in
  exists w1 cfg o',
    Objective_call run 0 sample_trial w
    = (parse_results (run 0%nat 0%nat w1), with_log w1 [EvRun 0 0]) /\
    heap w1 !! 0%nat = Some o' /\
    conf_thres o' = suggest_float sample_trial "det_thresh" 0.35 0.55 /\
    (forall fs, replay (log w1) fs !! tracking_config o
                = Some [Yaml {[ "ocsort" := cfg ]}]) /\
    cfg !! "det_thresh" = Some (VFloat (conf_thres o')).
Proof.
  intros run w o.
  apply (Objective_call_ocsort_threshold run 0 sample_trial w o).
  - vm_compute. reflexivity.
  - vm_compute. reflexivity.
  - reflexivity.
Defined.

Lemma Objective_call_strongsort_threshold_witness :
  let run := fun (_ _ : nat) (_ : World) => harness_report in
  let w := sample_world "strongsort" true in
  let o := sample_opt "strongsort" in
  exists w1 cfg o',
    Objective_call run 0 sample_trial w
    = (parse_results (run 0%nat 0%nat w1), with_log w1 [EvRun 0 0]) /\
    heap w1 !! 0%nat = Some o' /\
    conf_thres o' = suggest_float sample_trial "conf_thres" 0.35 0.55 /\
    (forall fs, replay (log w1) fs !! tracking_config o
                = Some [Yaml {[ "strongsort" := cfg ]}]) /\
    cfg !! "conf_thres" = None /\
    cfg !! "iou_thresh" = None.
Proof.
  intros run w o.
  apply (Objective_call_strongsort_threshold run 0 sample_trial w o).
  - vm_compute. reflexivity.
  - vm_compute. reflexivity.
  - reflexivity.
Defined.

(** * Further properties of the reporting functions *)

Lemma objective_value_at i t :
  (i < length (values t))%nat -> objective_value i t = Ok (value_at i t).
Proof.
  intros Hi. unfold objective_value, value_at.
  destruct (lookup_lt_is_Some_2 (values t) i Hi) as [v Hv].
  rewrite Hv, (nth_lookup_Some _ _ _ _ Hv). reflexivity.
Qed.

Lemma py_max_at {i} l :
  l <> [] ->
  (forall t, In t l -> (i < length (values t))%nat) ->
  exists t, py_max (objective_value i) l = Ok t /\ first_max (value_at i) l t.
Proof.
  intros Hne Hlen.
  destruct (py_max_first_max (objective_value i) (value_at i) l Hne)
    as (t & pre & post & Hmax & Hrest).
  { intros t Ht. apply objective_value_at, Hlen, Ht. }
  exists t. split; [exact Hmax|]. exists pre, post. exact Hrest.
Qed.

Lemma bind_print_trial {B} t (f : unit -> M B) w :
  (print_trial t ≫= f) w = f tt (with_log w (trial_lines t)).
Proof.
  unfold print_trial. rewrite bind_assoc_M, bind_emit, bind_assoc_M, bind_emit.
  rewrite bind_emit, !with_log_app. reflexivity.
Qed.

Lemma print_trial_run t w : print_trial t w = (Ok tt, with_log w (trial_lines t)).
Proof.
  unfold print_trial. rewrite bind_emit, bind_emit, emit_run, !with_log_app.
  reflexivity.
Qed.

Lemma replay_prints evs fs :
  Forall (fun e => exists text, e = EvPrint text) evs -> replay evs fs = fs.
Proof.
  unfold replay. revert fs. induction evs as [|e evs IH]; intros fs Hall; [reflexivity|].
  inversion Hall as [|? ? [text ->] Hall']; subst. cbn [foldl apply_event].
  apply IH. exact Hall'.
Qed.

Section Reporting.

Variable best_trials : Study -> list FrozenTrial.

Lemma print_best_runs study hota mota idf1 w :
  py_max (objective_value 0) (best_trials study) = Ok hota ->
  py_max (objective_value 1) (best_trials study) = Ok mota ->
  py_max (objective_value 2) (best_trials study) = Ok idf1 ->
  print_best_trial_metric_results best_trials study w
  = (Ok tt, with_log w (best_lines (length (best_trials study)) hota mota idf1)).
Proof.
  intros Hmax0 Hmax1 Hmax2. unfold print_best_trial_metric_results.
  rewrite bind_emit, Hmax0, bind_lift_ok, bind_emit, bind_print_trial.
  rewrite Hmax1, bind_lift_ok, bind_emit, bind_print_trial.
  rewrite Hmax2, bind_lift_ok, bind_emit, print_trial_run.
  rewrite !with_log_app. reflexivity.
Qed.

Lemma print_best_raises study w :
  best_trials study = [] ->
  print_best_trial_metric_results best_trials study w
  = (Raise ValueError, with_log w [front_size_line 0]).
Proof.
  intros Hempty. unfold print_best_trial_metric_results.
  rewrite bind_emit, Hempty. reflexivity.
Qed.


Lemma best_lines_print n hota mota idf1 :
  Forall (fun e => exists text, e = EvPrint text) (best_lines n hota mota idf1).
Proof.
  unfold best_lines, front_size_line, trial_lines.
  repeat (first [apply Forall_cons; split; [eexists; reflexivity|]
                |apply Forall_nil_2]).
Qed.

(** X12: with an empty front [print_best_trial_metric_results] prints the
    line that counts zero trials and then raises [ValueError]. *)
Theorem print_best_empty_front study w :
  best_trials study = [] ->
  print_best_trial_metric_results best_trials study w
  = (Raise ValueError, with_log w [front_size_line 0]).
Proof. apply print_best_raises. Qed.

(** X13: with a front that is not empty and whose trials have their three
    values, [print_best_trial_metric_results] returns after printing the
    size of the front and, for HOTA, MOTA and IDF1 in this order, the
    number, parameters and values of the first trial of the front that is
    greatest in that objective; it writes no file. *)
Theorem print_best_reports_first_max study w :
  best_trials study <> [] ->
  (forall t, In t (best_trials study) -> (3 <= length (values t))%nat) ->
  exists hota mota idf1,
    first_max (value_at 0) (best_trials study) hota /\
    first_max (value_at 1) (best_trials study) mota /\
    first_max (value_at 2) (best_trials study) idf1 /\
    print_best_trial_metric_results best_trials study w
    = (Ok tt, with_log w (best_lines (length (best_trials study)) hota mota idf1)) /\
    (forall fs,
       replay (log w ++ best_lines (length (best_trials study)) hota mota idf1) fs
       = replay (log w) fs).
Proof.
  intros Hne Hlen.
  destruct (@py_max_at 0 (best_trials study) Hne) as (hota & Hmax0 & Hfirst0);
    [intros t Ht; specialize (Hlen t Ht); lia|].
  destruct (@py_max_at 1 (best_trials study) Hne) as (mota & Hmax1 & Hfirst1);
    [intros t Ht; specialize (Hlen t Ht); lia|].
  destruct (@py_max_at 2 (best_trials study) Hne) as (idf1 & Hmax2 & Hfirst2);
    [intros t Ht; specialize (Hlen t Ht); lia|].
  exists hota, mota, idf1.
  split; [exact Hfirst0|]. split; [exact Hfirst1|]. split; [exact Hfirst2|]. split.
  - exact (print_best_runs study hota mota idf1 w Hmax0 Hmax1 Hmax2).
  - intros fs. rewrite replay_app. apply replay_prints, best_lines_print.
Qed.

(** X14: with an empty front [write_best_HOTA_params_to_config] raises
    [ValueError] before it opens the configuration file: nothing is
    written. *)
Theorem write_best_empty_front opt study w :
  best_trials study = [] ->
  write_best_HOTA_params_to_config best_trials opt study w = (Raise ValueError, w).
Proof.
  intros Hempty. unfold write_best_HOTA_params_to_config.
  rewrite Hempty. reflexivity.
Qed.

End Reporting.

Lemma print_best_empty_front_witness :
  print_best_trial_metric_results (fun _ => []) (create_study [Maximize]) (mkWorld ∅ ∅ [])
  = (Raise ValueError, with_log (mkWorld ∅ ∅ []) [front_size_line 0]).
Proof.
  apply (print_best_empty_front (fun _ => [])). reflexivity.
Defined.

Lemma write_best_empty_front_witness :
  write_best_HOTA_params_to_config (fun _ => []) 0 (create_study [Maximize])
                                   (sample_world "ocsort" true)
  = (Raise ValueError, sample_world "ocsort" true).
Proof.
  apply (write_best_empty_front (fun _ => [])). reflexivity.
Defined.

Lemma print_best_reports_first_max_witness :
  let best_trials := fun _ : Study => sample_front in
  let study := create_study [Maximize; Maximize; Maximize] in
  let w := mkWorld ∅ ∅ [] in
  exists hota mota idf1,
    first_max (value_at 0) sample_front hota /\
    first_max (value_at 1) sample_front mota /\
    first_max (value_at 2) sample_front idf1 /\
    print_best_trial_metric_results best_trials study w
    = (Ok tt, with_log w (best_lines 3 hota mota idf1)) /\
    (forall fs, replay (log w ++ best_lines 3 hota mota idf1) fs = replay (log w) fs).
Proof.
  intros best_trials study w.
  apply (print_best_reports_first_max best_trials study w).
  - discriminate.
  - intros t [<-|[<-|[<-|[]]]]; cbn; lia.
Defined.

(** ** The files of [save_plots] *)

Lemma save_plots_runs opt study w o :
  heap w !! opt = Some o ->
  save_plots opt study w
  = (Ok tt, with_log w (plot_events (tracking_method o) (n_trials o) study)).
Proof.
  intros H. unfold save_plots, plot_events.
  rewrite (bind_getattr _ _ _ _ _ H), bind_emit.
  erewrite bind_getattr by exact H.
  rewrite (Z.leb_antisym 1 (n_trials o)), negb_involutive.
  destruct (1 <? n_trials o).
  - erewrite bind_getattr by exact H. rewrite bind_emit.
    erewrite bind_getattr by exact H. rewrite bind_emit.
    erewrite bind_getattr by exact H. rewrite emit_run, !with_log_app.
    reflexivity.
  - reflexivity.
Qed.

Ltac differ_at_head :=
  let Heq := fresh in
  intros Heq; rewrite !append_cons in Heq; discriminate Heq.

(** X15: with more than one trial requested [save_plots] leaves four
    different files, each holding its own figure, and no other file, no
    namespace and no global is changed. *)
Theorem save_plots_four_files opt study w o :
  heap w !! opt = Some o ->
  1 < n_trials o ->
  exists w',
    save_plots opt study w = (Ok tt, w') /\
    heap w' = heap w /\ globals w' = globals w /\
    forall fs,
      let tm := tracking_method o in
      let fs' := replay (log w') fs in
      fs' !! ("pareto_front_" ++ tm ++ ".html")
        = Some [Html (ParetoFront study ["HOTA"; "MOTA"; "IDF1"])] /\
      fs' !! ("HOTA_param_importances_" ++ tm ++ ".html")
        = Some [Html (ParamImportances study 0 "HOTA")] /\
      fs' !! ("MOTA_param_importances_" ++ tm ++ ".html")
        = Some [Html (ParamImportances study 1 "MOTA")] /\
      fs' !! ("IDF1_param_importances_" ++ tm ++ ".html")
        = Some [Html (ParamImportances study 2 "IDF1")] /\
      (forall p,
         p <> "pareto_front_" ++ tm ++ ".html" ->
         p <> "HOTA_param_importances_" ++ tm ++ ".html" ->
         p <> "MOTA_param_importances_" ++ tm ++ ".html" ->
         p <> "IDF1_param_importances_" ++ tm ++ ".html" ->
         fs' !! p = replay (log w) fs !! p).
Proof.
  intros H Hn. eexists. split; [exact (save_plots_runs opt study w o H)|].
  split; [reflexivity|]. split; [reflexivity|].
  intros fs tm fs'. subst fs'. cbn [log with_log]. rewrite replay_app.
  unfold plot_events. apply Z.ltb_lt in Hn. rewrite Hn.
  unfold replay at 1 3 5 7 9. cbn [foldl importance_events apply_event]. fold tm.
  split; [|split; [|split; [|split]]].
  - rewrite !lookup_insert_ne by differ_at_head. apply lookup_insert_eq.
  - rewrite !lookup_insert_ne by differ_at_head. apply lookup_insert_eq.
  - rewrite !lookup_insert_ne by differ_at_head. apply lookup_insert_eq.
  - apply lookup_insert_eq.
  - intros p H1 H2 H3 H4. rewrite !lookup_insert_ne by congruence. reflexivity.
Qed.

Lemma save_plots_four_files_witness :
  let study := create_study [Maximize; Maximize; Maximize] in
  let w := sample_world "ocsort" true in
  exists w',
    save_plots 0 study w = (Ok tt, w') /\
    heap w' = heap w /\ globals w' = globals w /\
    forall fs,
      let fs' := replay (log w') fs in
      fs' !! ("pareto_front_" ++ "ocsort" ++ ".html")
        = Some [Html (ParetoFront study ["HOTA"; "MOTA"; "IDF1"])] /\
      fs' !! ("HOTA_param_importances_" ++ "ocsort" ++ ".html")
        = Some [Html (ParamImportances study 0 "HOTA")] /\
      fs' !! ("MOTA_param_importances_" ++ "ocsort" ++ ".html")
        = Some [Html (ParamImportances study 1 "MOTA")] /\
      fs' !! ("IDF1_param_importances_" ++ "ocsort" ++ ".html")
        = Some [Html (ParamImportances study 2 "IDF1")] /\
      (forall p,
         p <> "pareto_front_" ++ "ocsort" ++ ".html" ->
         p <> "HOTA_param_importances_" ++ "ocsort" ++ ".html" ->
         p <> "MOTA_param_importances_" ++ "ocsort" ++ ".html" ->
         p <> "IDF1_param_importances_" ++ "ocsort" ++ ".html" ->
         fs' !! p = replay (log w) fs !! p).
Proof.
  intros study w.
  apply (save_plots_four_files 0 study w (sample_opt "ocsort")).
  - vm_compute. reflexivity.
  - cbn. lia.
Defined.

(** * Further properties of the script body *)



Lemma bind_save_plots {B} opt study (f : unit -> M B) w o :
  heap w !! opt = Some o ->
  (save_plots opt study ≫= f) w
  = f tt (with_log w (plot_events (tracking_method o) (n_trials o) study)).
Proof.
  intros H. unfold mbind at 1. unfold M_bind at 1.
  rewrite (save_plots_runs opt study w o H). reflexivity.
Qed.

Section ScriptRuns.

Variable best_trials : Study -> list FrozenTrial.
Variable run : nat -> nat -> World -> string.
Variable optimize : Study -> (Trial -> M (Q * Q * Q)) -> Z -> M Study.
Variable joblib_load : string -> M Study.
Variable ROOT : string.
Variable path_div : string -> string -> string.

Lemma script_world_opt w o :
  globals (script_world w o) !! "opt" = Some (fresh (dom (heap w))) /\
  heap (script_world w o) !! fresh (dom (heap w)) = Some o.
Proof. split; apply lookup_insert_eq. Qed.


Lemma main_resume args w o :
  arg_resume args = true ->
  parse_opt ROOT path_div args = Ok o ->
  main best_trials run optimize joblib_load ROOT path_div args w
  = (joblib_load (arg_tracking_method args ++ "_study.pkl")
     ≫= fun study =>
          opt ← load_global "opt";
          n ← opt_attr n_trials;
          optimize study (Objective_call run opt) n
          ≫= script_after_optimize best_trials) (script_world w o).
Proof.
  intros Hres Hparse.
  destruct (parse_opt_returns ROOT path_div args) as (o_ & Hparse' & Hm & _ & Hr & _).
  rewrite Hparse in Hparse'. injection Hparse' as <-.
  destruct (script_world_opt w o) as [Hg0 Hh0].
  unfold main. rewrite Hparse, bind_lift_ok.
  unfold mbind at 1. unfold M_bind at 1. unfold alloc at 1.
  unfold mbind at 1. unfold M_bind at 1. unfold store_global at 1. cbn [heap globals log].
  fold (script_world w o).
  rewrite (bind_opt_attr _ _ _ _ _ Hg0 Hh0), Hr, Hres.
  cbv beta iota. rewrite bind_assoc_M.
  rewrite (bind_opt_attr _ _ _ _ _ Hg0 Hh0), Hm.
  reflexivity.
Qed.

Lemma after_optimize_plots study w1 ref1 o1 :
  globals w1 !! "opt" = Some ref1 ->
  heap w1 !! ref1 = Some o1 ->
  script_after_optimize best_trials study w1
  = (print_best_trial_metric_results best_trials study
     ≫= fun _ => opt ← load_global "opt";
                 write_best_HOTA_params_to_config best_trials opt study)
      (with_log w1 (EvJoblibDump (tracking_method o1 ++ "_study.pkl") study
                    :: plot_events (tracking_method o1) (n_trials o1) study)).
Proof.
  intros Hg Hh. unfold script_after_optimize.
  rewrite (bind_opt_attr _ _ _ _ _ Hg Hh), bind_emit.
  erewrite bind_load_global by exact Hg.
  erewrite bind_save_plots by exact Hh.
  rewrite with_log_app. reflexivity.
Qed.




(** X17: with [--resume] the study is loaded from the file named by the
    tracker type followed by "_study.pkl"; when the load raises, the script
    raises the same exception and [study.optimize] is not called. *)
Theorem main_resume_load_raises args w o e w' :
  arg_resume args = true ->
  parse_opt ROOT path_div args = Ok o ->
  joblib_load (arg_tracking_method args ++ "_study.pkl") (script_world w o)
  = (Raise e, w') ->
  main best_trials run optimize joblib_load ROOT path_div args w = (Raise e, w').
Proof.
  intros Hres Hparse Hload. rewrite (main_resume args w o Hres Hparse).
  unfold mbind at 1. unfold M_bind at 1. rewrite Hload. reflexivity.
Qed.

(** X18: with [--resume] the loaded study is the one handed to
    [study.optimize], and the study that comes back is dumped to the file
    the first was loaded from, as long as the tracker type of [opt] is
    still the one of the command line: the checkpoint is replaced. *)
Theorem main_resume_checkpoint args w o loaded wl ref o' study' w1 ref1 o1 :
  arg_resume args = true ->
  parse_opt ROOT path_div args = Ok o ->
  let path := arg_tracking_method args ++ "_study.pkl" in
  joblib_load path (script_world w o) = (Ok loaded, wl) ->
  globals wl !! "opt" = Some ref ->
  heap wl !! ref = Some o' ->
  optimize loaded (Objective_call run ref) (n_trials o') wl = (Ok study', w1) ->
  globals w1 !! "opt" = Some ref1 ->
  heap w1 !! ref1 = Some o1 ->
  tracking_method o1 = arg_tracking_method args ->
  (exists r evs,
     main best_trials run optimize joblib_load ROOT path_div args w
     = (r, with_log w1 (EvJoblibDump path study' :: evs))) /\
  (forall fs, replay (log w1 ++ [EvJoblibDump path study']) fs !! path
              = Some [Pickle study']).
Proof.
  intros Hres Hparse path Hload Hg Hh Hopt Hg1 Hh1 Hm. split.
  - rewrite (main_resume args w o Hres Hparse).
    unfold mbind at 1. unfold M_bind at 1. fold path. rewrite Hload.
    rewrite (bind_load_global _ _ _ _ Hg), (bind_opt_attr _ _ _ _ _ Hg Hh).
    unfold mbind at 1. unfold M_bind at 1. rewrite Hopt.
    rewrite (after_optimize_plots study' w1 ref1 o1 Hg1 Hh1), Hm. fold path.
    match goal with
    | |- exists r evs, ?c ?w0 = _ => assert (Htail : appends c)
    end.
    { repeat first
        [ apply appends_print_best | apply appends_write_best
        | apply appends_load_global | apply appends_bind; [|intros ?] ]. }
    match goal with
    | |- exists r evs, _ ?w0 = _ => destruct (Htail w0) as (r & evs & Hrun)
    end.
    exists r. eexists. rewrite Hrun, with_log_app. cbn [app]. reflexivity.
  - intros fs. rewrite replay_app. unfold replay at 1. cbn [foldl apply_event].
    apply lookup_insert_eq.
Qed.



End ScriptRuns.





Section ScriptFiles.

Variable best_trials : Study -> list FrozenTrial.
Variable run : nat -> nat -> World -> string.
Variable optimize : Study -> (Trial -> M (Q * Q * Q)) -> Z -> M Study.
Variable joblib_load : string -> M Study.
Variable ROOT : string.
Variable path_div : string -> string -> string.


End ScriptFiles.


Lemma main_resume_load_raises_witness :
  let run := fun (_ _ : nat) (_ : World) => harness_report in
  exists w',
    main trials run one_trial_optimize (fun _ => lift (Raise ValueError))
         "." sample_path_div resume_args (mkWorld ∅ ∅ [])
    = (Raise ValueError, w').
Proof.
  intros run. eexists.
  eapply (main_resume_load_raises trials run one_trial_optimize
            (fun _ => lift (Raise ValueError)) "." sample_path_div
            resume_args (mkWorld ∅ ∅ [])).
  - reflexivity.
  - vm_compute. reflexivity.
  - vm_compute. reflexivity.
Defined.

Lemma main_resume_checkpoint_witness :
  let run := fun (_ _ : nat) (_ : World) => harness_report in
  let path := "ocsort_study.pkl" in
  exists study' w1,
    length (trials study') = 2%nat /\
    (exists r evs,
       main trials run one_trial_optimize (fun _ => mret sample_checkpoint)
            "." sample_path_div resume_args (mkWorld ∅ ∅ [])
       = (r, with_log w1 (EvJoblibDump path study' :: evs))) /\
    (forall fs, replay (log w1 ++ [EvJoblibDump path study']) fs !! path
                = Some [Pickle study']).
Proof.
  intros run path.
  edestruct (main_resume_checkpoint trials run one_trial_optimize
               (fun _ => mret sample_checkpoint) "." sample_path_div
               resume_args (mkWorld ∅ ∅ [])) as [Hmain Hfile].
  - reflexivity.
  - vm_compute. reflexivity.
  - vm_compute. reflexivity.
  - vm_compute. reflexivity.
  - vm_compute. reflexivity.
  - vm_compute. reflexivity.
  - vm_compute. reflexivity.
  - vm_compute. reflexivity.
  - reflexivity.
  - eexists _, _. split; [|split; [exact Hmain|exact Hfile]]. reflexivity.
Defined.




(** * The device list *)

Lemma split_comma_length s : length (split "," s) = S (count_commas s).
Proof.
  unfold split. induction s as [|c s IH]; [reflexivity|].
  cbn [split_from count_commas String.prefix].
  destruct (ascii_dec "," c) as [<-|Hne].
  - replace (String.prefix "" s) with true by (destruct s; reflexivity).
    change (Ascii.eqb "," ",") with true.
    change (String.length "," - 1)%nat with 0%nat.
    cbn [length Nat.add]. rewrite IH. reflexivity.
  - replace (Ascii.eqb c ",") with false
      by (symmetry; apply Ascii.eqb_neq; congruence).
    destruct (split_from "," s 0) as [|p ps]; cbn in IH |- *; [discriminate|exact IH].
Qed.

(** X22: the device list of [parse_opt] has one entry more than the device
    text has commas, so it is never empty; for the default, the empty
    text, it is the list of the empty string. *)
Theorem parse_opt_device_count ROOT path_div args :
  exists o,
    parse_opt ROOT path_div args = Ok o /\
    length (device o) = S (count_commas (arg_device args)) /\
    (arg_device args = "" -> device o = [DevStr ""]).
Proof.
  destruct (parse_opt_returns ROOT path_div args) as (o & Hparse & _ & _ & _ & Hall).
  exists o. split; [exact Hparse|]. split.
  - rewrite <- (Forall2_length _ _ _ Hall). apply split_comma_length.
  - intros Hempty. rewrite Hempty in Hall.
    change (split "," "") with [""] in Hall.
    inversion Hall as [|a e ? ? He Hrest]; subst.
    inversion Hrest; subst.
    destruct He as [(n & Hn & _)|[_ ->]]; [vm_compute in Hn; discriminate|reflexivity].
Qed.

(** * C10: the evaluation is called on the global [opt] *)

(** C10, as stated, fails in its last part: [self.opt] reaches the
    evaluation also when it is another object than the global [opt],
    through the configuration file that [get_new_config] writes from it.
    Of two instances that differ in the [conf_thres] of their own namespace
    only, with the same global [opt], an evaluation that reads the written
    file gives scores for one and none for the other. *)
Lemma Objective_call_self_opt_reaches_evaluation :
  let wa := two_namespaces 0.45 in
  let wb := two_namespaces 0.3 in
  globals wa !! "opt" = Some 0%nat /\
  globals wb !! "opt" = Some 0%nat /\
  heap wa !! 0%nat = heap wb !! 0%nat /\
  (Objective_call config_reading_run 1 sample_trial wa).1 = Ok sample_scores /\
  (Objective_call config_reading_run 1 sample_trial wb).1 = Raise (KeyError "HOTA").
Proof.
  intros wa wb.
  split; [vm_compute; reflexivity|]. split; [vm_compute; reflexivity|].
  split; [vm_compute; reflexivity|]. split; vm_compute; reflexivity.
Qed.

Section GlobalOpt.

Variable run : nat -> nat -> World -> string.

(** C10 (amended): [__call__] passes the module global [opt] to [run], not
    [self.opt].  Once [get_new_config] has returned, having written the
    configuration file at the path of [self.opt] under the tracker type of
    [self.opt] and called [run] not at all, a call without a global [opt]
    raises [NameError] with nothing more done; with a global [opt] the
    report parsed is that of [run] on the namespace the global names,
    which, when it is another object than [self.opt], is as it was before
    the call.  What [self.opt] holds reaches the evaluation in either case
    through the configuration file. *)
Theorem Objective_call_reads_global_opt self trial w o w1 :
  heap w !! self = Some o ->
  get_new_config self trial w = (Ok tt, w1) ->
  (exists d,
     log w1 = (log w ++ config_events (tracking_config o) d)%list /\
     (forall fs, replay (log w1) fs !! tracking_config o = Some [Yaml d]) /\
     (forall k, k <> tracking_method o -> d !! k = None)) /\
  (globals w !! "opt" = None ->
   Objective_call run self trial w = (Raise (NameError "opt"), w1)) /\
  (forall g, globals w !! "opt" = Some g ->
     Objective_call run self trial w
     = (parse_results (run self g w1), with_log w1 [EvRun self g]) /\
     (g <> self -> heap w1 !! g = heap w !! g)).
Proof.
  intros H Hcfg.
  destruct (get_new_config_shape self trial w o H) as (o' & d & Hrun & _ & Hd).
  assert (Hw1 : w1 = with_log (with_heap w (<[self := o']> (heap w)))
                              (config_events (tracking_config o) d)) by congruence.
  split; [|split].
  - exists d. rewrite Hw1. cbn [log with_log with_heap].
    split; [reflexivity|]. split; [intros fs; apply replay_config_events|].
    intros k Hk. destruct (known_tracker (tracking_method o)).
    + destruct Hd as [cfg ->]. apply lookup_singleton_ne. congruence.
    + destruct Hd as [-> _]. apply lookup_empty.
  - intros Hg. exact (Objective_call_without_global run _ _ _ _ Hcfg Hg).
  - intros g Hg. split.
    + exact (Objective_call_with_global run _ _ _ _ _ Hcfg Hg).
    + intros Hne. rewrite Hw1. cbn [heap with_log with_heap].
      apply lookup_insert_ne. congruence.
Qed.

End GlobalOpt.

Lemma Objective_call_reads_global_opt_witness :
  let run := fun (_ _ : nat) (_ : World) => harness_report in
  let w := sample_world "strongsort" false in
  let o := sample_opt "strongsort" in
  let w1 := (get_new_config 0 sample_trial w).2 in
  (exists d,
     log w1 = (log w ++ config_events (tracking_config o) d)%list /\
     (forall fs, replay (log w1) fs !! tracking_config o = Some [Yaml d]) /\
     (forall k, k <> tracking_method o -> d !! k = None)) /\
  (globals w !! "opt" = None ->
   Objective_call run 0 sample_trial w = (Raise (NameError "opt"), w1)) /\
  (forall g, globals w !! "opt" = Some g ->
     Objective_call run 0 sample_trial w
     = (parse_results (run 0%nat g w1), with_log w1 [EvRun 0 g]) /\
     (g <> 0%nat -> heap w1 !! g = heap w !! g)).
Proof.
  intros run w o w1.
  apply (Objective_call_reads_global_opt run 0 sample_trial w o w1).
  - vm_compute. reflexivity.
  - vm_compute. reflexivity.
Defined.
